(** * Generative-AI-Storyteller: the Flask backend [app.py]

    A shallow embedding of the two routes of [app.py] and of the start-up
    code that configures the Gemini client, followed by the properties the
    specification states about them.

    Python values are modelled by the observations the handler makes of
    them: a [str] is the list of its code points, an exception is its
    [str(type(e))], its [str(e)], its optional [message] attribute and its
    traceback, a generation response is its candidate list, its prompt
    feedback and the outcome of its [text] accessor.  Effects (log records
    and calls of the remote service) are collected in a trace. *)

From Stdlib Require Import String Ascii.
From Stdlib Require Import List ZArith NArith QArith Bool Lia.
Import ListNotations.

Local Open Scope Z_scope.
Local Open Scope list_scope.

(* ================================================================== *)
(** ** Python strings *)
(* ================================================================== *)

Module PyStr.

(** A Python [str] is a sequence of Unicode code points; [len] counts code
    points. *)
Definition char := N.
Definition str := list char.

(** The source's literals are ASCII: a literal is read character by
    character. *)
Definition lit (s : string) : str := map N_of_ascii (list_ascii_of_string s).

(** Code points that cannot be written inside a literal here. *)
Definition dquote : char := 34%N.
Definition newline : char := 10%N.

(** [len(s)] *)
Definition len (s : str) : Z := Z.of_nat (length s).

Definition eqb (a b : str) : bool :=
  if list_eq_dec N.eq_dec a b then true else false.

(** [s.startswith(p)] *)
Fixpoint startswith (p s : str) : bool :=
  match p, s with
  | [], _ => true
  | _ :: _, [] => false
  | a :: p', b :: s' => N.eqb a b && startswith p' s'
  end.

(** [needle in hay] for two strings: [needle] occurs at some position. *)
Fixpoint contains (needle hay : str) : bool :=
  startswith needle hay
  || match hay with
     | [] => false
     | _ :: hay' => contains needle hay'
     end.

(** [c.isspace()] as CPython's [_PyUnicode_IsWhitespace] decides it. *)
Definition isspace (c : char) : bool :=
  (((9 <=? c) && (c <=? 13)) || ((28 <=? c) && (c <=? 32))
   || (c =? 133) || (c =? 160) || (c =? 5760)
   || ((8192 <=? c) && (c <=? 8202))
   || (c =? 8232) || (c =? 8233) || (c =? 8239) || (c =? 8287)
   || (c =? 12288))%N.

Fixpoint lstrip (s : str) : str :=
  match s with
  | [] => []
  | c :: s' => if isspace c then lstrip s' else s
  end.

Definition rstrip (s : str) : str := rev (lstrip (rev s)).

(** [s.strip()] *)
Definition strip (s : str) : str := rstrip (lstrip s).

(** Truthiness of a string: non-empty. *)
Definition truthy (s : str) : bool :=
  match s with [] => false | _ :: _ => true end.

(** All code points of [s] are whitespace. *)
Definition all_space (s : str) : bool := forallb isspace s.

(** [s] neither starts nor ends with whitespace. *)
Definition trimmed (s : str) : bool :=
  match s with
  | [] => true
  | c :: _ => negb (isspace c) && negb (isspace (last s c))
  end.

End PyStr.

Import PyStr.

(* ================================================================== *)
(** ** Python values the handler observes *)
(* ================================================================== *)

(** An exception (a subclass of [Exception]; [KeyboardInterrupt] and the
    other [BaseException]s that no [except Exception] catches are outside
    the model).  [exn_message] is the [message] attribute when the object
    has one; the Google API errors that carry it make it a [str]. *)
Record Exn := mkExn {
  exn_type : str;              (* str(type(e)) *)
  exn_str : str;               (* str(e) *)
  exn_message : option str;    (* e.message, if hasattr(e, 'message') *)
  exn_traceback : list str     (* the frames exc_info=True would log *)
}.

#[local] Set Warnings "-register-all".

(** A parsed JSON document as [json.loads] builds it.  A [float] is kept
    only as far as the handler looks at it: whether it is zero. *)
Inductive JValue : Type :=
| JNull
| JBool (b : bool)
| JInt (z : Z)
| JFloat (nonzero : bool)
| JStr (s : str)
| JArr (items : list JValue)
| JObj (fields : list (str * JValue)).

(** What [request.get_json()] does with the body: it raises (the body is
    not JSON, or the content type is refused) or returns the parsed
    document ([None] is [JNull]). *)
Inductive Body : Type :=
| Unparsable (e : Exn)
| Parsed (v : JValue).

(** [type(v).__name__] *)
Definition type_name (v : JValue) : str :=
  match v with
  | JNull => lit "NoneType"
  | JBool _ => lit "bool"
  | JInt _ => lit "int"
  | JFloat _ => lit "float"
  | JStr _ => lit "str"
  | JArr _ => lit "list"
  | JObj _ => lit "dict"
  end.

Definition here : list str := [lit "generate_story_api"].

Definition AttributeError (v : JValue) (attr : str) : Exn :=
  mkExn (lit "<class 'AttributeError'>")
        (lit "'" ++ type_name v ++ lit "' object has no attribute '" ++ attr ++ lit "'")
        None here.

Definition TypeError_no_len (v : JValue) : Exn :=
  mkExn (lit "<class 'TypeError'>")
        (lit "object of type '" ++ type_name v ++ lit "' has no len()")
        None here.

(** [bool(v)] *)
Definition py_truthy (v : JValue) : bool :=
  match v with
  | JNull => false
  | JBool b => b
  | JInt z => negb (z =? 0)
  | JFloat nonzero => nonzero
  | JStr s => truthy s
  | JArr items => match items with [] => false | _ :: _ => true end
  | JObj fields => match fields with [] => false | _ :: _ => true end
  end.

(** A JSON object with a repeated key becomes a [dict] that keeps the last
    value. *)
Fixpoint dict_lookup (k : str) (fields : list (str * JValue)) : option JValue :=
  match fields with
  | [] => None
  | (k', v) :: rest =>
      match dict_lookup k rest with
      | Some w => Some w
      | None => if PyStr.eqb k k' then Some v else None
      end
  end.

Definition dict_keys (fields : list (str * JValue)) : list str :=
  nodup (list_eq_dec N.eq_dec) (map fst fields).

(** [len(v)] *)
Definition py_len (v : JValue) : Exn + Z :=
  match v with
  | JStr s => inr (len s)
  | JArr items => inr (Z.of_nat (length items))
  | JObj fields => inr (Z.of_nat (length (dict_keys fields)))
  | _ => inl (TypeError_no_len v)
  end.

(** [data.get(key)]: only a [dict] has the method; a missing key is
    [None]. *)
Definition py_get (data : JValue) (key : str) : Exn + JValue :=
  match data with
  | JObj fields =>
      inr (match dict_lookup key fields with Some v => v | None => JNull end)
  | _ => inl (AttributeError data (lit "get"))
  end.

(* ================================================================== *)
(** ** The Gemini client, as far as [app.py] uses it *)
(* ================================================================== *)

(** [genai.types.GenerationConfig]; a field left out of the call is
    [None].  A decimal literal of the source is kept as the rational it
    denotes. *)
Record GenerationConfig := mkGenerationConfig {
  candidate_count : option Z;
  stop_sequences : option (list str);
  max_output_tokens : option Z;
  temperature : option Q;
  top_p : option Q;
  top_k : option Z
}.

(** A [BlockReason] enum member: its integer value (zero,
    [BLOCK_REASON_UNSPECIFIED], is falsy) and its [name]. *)
Record BlockReason := mkBlockReason {
  br_value : Z;
  br_name : str
}.

Record PromptFeedback := mkPromptFeedback {
  block_reason : BlockReason
}.

Record Candidate := mkCandidate {
  content_parts : list str;
  finish_reason : Z
}.

(** A [GenerateContentResponse]: [prompt_feedback] is [None] when the
    message is empty (falsy); [text] is the outcome of the quick accessor
    [response.text], which raises when the candidate holds no text. *)
Record GenerateContentResponse := mkResponse {
  candidates : list Candidate;
  prompt_feedback : option PromptFeedback;
  text : Exn + str
}.

(** A [genai.GenerativeModel]: the remote call either raises or returns a
    response. *)
Record GenerativeModel := mkModel {
  generate_content : str -> GenerationConfig -> Exn + GenerateContentResponse
}.

(* ================================================================== *)
(** ** Effects: a trace of events, and exceptions *)
(* ================================================================== *)

Inductive Level : Type := INFO | WARNING | ERROR.

Inductive Event : Type :=
| Log (lvl : Level) (msg : str) (exc_info : option Exn)
| RemoteCall (prompt : str) (config : GenerationConfig).

Definition M (A : Type) : Type := (list Event * (Exn + A))%type.

Definition ret {A : Type} (a : A) : M A := ([], inr a).

Definition raise {A : Type} (e : Exn) : M A := ([], inl e).

Definition lift {A : Type} (r : Exn + A) : M A := ([], r).

Definition bind {A B : Type} (m : M A) (k : A -> M B) : M B :=
  match m with
  | (t, inl e) => (t, inl e)
  | (t, inr a) => let (t', r) := k a in (t ++ t', r)
  end.

Notation "x <- m ;; k" := (bind m (fun x => k))
  (at level 61, m at next level, right associativity).
Notation "m ;;; k" := (bind m (fun _ => k))
  (at level 61, right associativity).

(** [try: body  except Exception as e: handler e] *)
Definition try_except {A : Type} (body : M A) (handler : Exn -> M A) : M A :=
  match body with
  | (t, inl e) => let (t', r) := handler e in (t ++ t', r)
  | (t, inr a) => (t, inr a)
  end.

Definition log (lvl : Level) (msg : str) : M unit := ([Log lvl msg None], inr tt).

Definition log_exc (lvl : Level) (msg : str) (e : Exn) : M unit :=
  ([Log lvl msg (Some e)], inr tt).

Definition trace {A : Type} (m : M A) : list Event := fst m.

Definition outcome {A : Type} (m : M A) : Exn + A := snd m.

Definition is_remote_call (ev : Event) : bool :=
  match ev with RemoteCall _ _ => true | Log _ _ _ => false end.

(** The calls of the remote service in a trace, in order. *)
Definition remote_calls (t : list Event) : list Event := filter is_remote_call t.

(* ================================================================== *)
(** ** HTTP responses *)
(* ================================================================== *)

(** [jsonify] is only given a [dict] of strings; [render_template] gives a
    page. *)
Inductive Payload : Type :=
| Json (obj : list (str * str))
| Html (page : str).

Record HttpResponse := mkHttp {
  status : Z;
  payload : Payload
}.

Definition jsonify (obj : list (str * str)) : Payload := Json obj.

(** [return jsonify({"error": msg}), code] *)
Definition error_response (msg : str) (code : Z) : HttpResponse :=
  mkHttp code (jsonify [(lit "error", msg)]).

(** The value of a key of a JSON payload. *)
Definition json_field (k : str) (r : HttpResponse) : option str :=
  match payload r with
  | Json obj =>
      match find (fun kv => PyStr.eqb k (fst kv)) obj with
      | Some kv => Some (snd kv)
      | None => None
      end
  | Html _ => None
  end.

Definition json_keys (r : HttpResponse) : option (list str) :=
  match payload r with
  | Json obj => Some (map fst obj)
  | Html _ => None
  end.

(* ================================================================== *)
(** ** [app.py]: start-up *)
(* ================================================================== *)

(** What the module-level code reads from its surroundings: the process
    environment, the two calls into the SDK, and the template folder. *)
Record Env := mkEnv {
  getenv : str -> option str;
  genai_configure : str -> Exn + unit;
  genai_GenerativeModel : str -> Exn + GenerativeModel;
  templates : str -> option str
}.

(** The two module-level globals the routes read. *)
Record App := mkApp {
  google_api_key : option str;
  model : option GenerativeModel
}.

Definition MODEL_NAME : str := lit "gemini-1.5-flash-latest".

(** Truthiness of [os.getenv]'s result: [None] and the empty string are
    falsy. *)
Definition key_truthy (k : option str) : bool :=
  match k with
  | Some s => truthy s
  | None => false
  end.

(** Lines 17-27. *)
Definition configure_api_key (env : Env) : M (option str) :=
  let google_api_key := getenv env (lit "GOOGLE_API_KEY") in
  match google_api_key with
  | Some key =>
      if truthy key then
        try_except
          (lift (genai_configure env key) ;;;
           log INFO (lit "Google Gemini API key configured.") ;;;
           ret google_api_key)
          (fun e =>
             log ERROR (lit "Error configuring Google Gemini API: " ++ exn_str e) ;;;
             ret None)
      else
        log ERROR (lit "Error: GOOGLE_API_KEY environment variable not set.") ;;;
        ret google_api_key
  | None =>
      log ERROR (lit "Error: GOOGLE_API_KEY environment variable not set.") ;;;
      ret google_api_key
  end.

(** Lines 33-43. *)
Definition initialize_model (env : Env) (google_api_key : option str)
  : M (option GenerativeModel) :=
  try_except
    (if key_truthy google_api_key then
       m <- lift (genai_GenerativeModel env MODEL_NAME) ;;
       log INFO (lit "Google Gemini model '" ++ MODEL_NAME ++ lit "' initialized.") ;;;
       ret (Some m)
     else
       log WARNING (lit "Google Gemini model not initialized due to missing API key.") ;;;
       ret None)
    (fun e =>
       log ERROR (lit "Error initializing Google Gemini model '" ++ MODEL_NAME
                  ++ lit "': " ++ exn_str e) ;;;
       ret None).

(** The module-level code as a whole. *)
Definition startup (env : Env) : M App :=
  key <- configure_api_key env ;;
  m <- initialize_model env key ;;
  ret (mkApp key m).

(* ================================================================== *)
(** ** [app.py]: the static page *)
(* ================================================================== *)

Definition TemplateNotFound (name : str) : Exn :=
  mkExn (lit "<class 'jinja2.exceptions.TemplateNotFound'>") name (Some name)
        [lit "index"].

Definition render_template (env : Env) (name : str) : M str :=
  match templates env name with
  | Some page => ret page
  | None => raise (TemplateNotFound name)
  end.

(** [GET /] *)
Definition index (env : Env) : M HttpResponse :=
  page <- render_template env (lit "index.html") ;;
  ret (mkHttp 200 (Html page)).

(* ================================================================== *)
(** ** [app.py]: the action route *)
(* ================================================================== *)

(** Lines 75-82: the four keyword arguments given; [candidate_count] and
    [stop_sequences] are commented out in the source. *)
Definition generation_config : GenerationConfig :=
  {| candidate_count := None;
     stop_sequences := None;
     max_output_tokens := Some 300;
     temperature := Some 0.8%Q;
     top_p := Some 0.95%Q;
     top_k := Some 40 |}.

(** Lines 68-71: the f-string around the user's prompt. *)
Definition full_prompt (user_prompt : str) : str :=
  lit "You are a creative storyteller." ++ [newline]
  ++ lit "User's story starter: " ++ [dquote] ++ user_prompt ++ [dquote] ++ [newline]
  ++ lit "Continue this story, making it engaging and imaginative. Keep the continuation concise, around 150-200 words."
  ++ [newline]
  ++ lit "Story continuation:".

Definition generic_block_msg : str :=
  lit "Content generation blocked. The prompt might have violated safety guidelines or resulted in no valid output.".

Definition fallback_story : str :=
  lit "The AI couldn't come up with a story continuation this time. Try a different prompt!".

Definition auth_failed_msg : str :=
  lit "Authentication with Google AI service failed. Check your API key.".

Definition quota_exceeded_msg : str :=
  lit "Google AI service quota exceeded. Please check your usage or try again later.".

Definition service_error_prefix : str :=
  lit "An error occurred with the Google AI service: ".

Definition internal_error_prefix : str :=
  lit "An internal server error occurred: ".

Definition max_prompt_len : Z := 2000.

(** How a [try] statement that holds a [return] ends: the function
    returned, or control falls through to the next statement. *)
Inductive Flow (A : Type) : Type :=
| Returned (r : HttpResponse)
| Fell (a : A).
Arguments Returned {A} r.
Arguments Fell {A} a.

(** Lines 102-104: the message of the no-candidates branch. *)
Definition block_reason_msg (response : GenerateContentResponse) : str :=
  match prompt_feedback response with
  | Some feedback =>
      if negb (br_value (block_reason feedback) =? 0)
      then lit "Content generation blocked due to: " ++ br_name (block_reason feedback)
      else generic_block_msg
  | None => generic_block_msg
  end.

(** Lines 121-137: the classification of a failure of the remote call. *)
Definition error_message_of (e_gemini : Exn) : str :=
  match exn_message e_gemini with
  | Some m => m
  | None => exn_str e_gemini
  end.

Definition classify (e_gemini : Exn) : str * Z :=
  let error_message := error_message_of e_gemini in
  if contains (lit "API key not valid") error_message
     || contains (lit "PermissionDenied") (exn_type e_gemini)
  then (auth_failed_msg, 401)
  else if contains (lit "Quota") error_message
          || contains (lit "ResourceExhausted") (exn_type e_gemini)
  then (quota_exceeded_msg, 429)
  else if contains (lit "Invalid") error_message
          || contains (lit "BadRequest") (exn_type e_gemini)
  then (lit "Invalid request to Google AI service: " ++ error_message, 400)
  else (error_message, 500).

Section Handler.

(** [str(v)] of a parsed document that is not a string (the [repr] of a
    list or a dict), which the f-strings would embed. *)
Variable py_str_of : JValue -> str.

(** [f"{v}"] *)
Definition py_format (v : JValue) : str :=
  match v with
  | JStr s => s
  | _ => py_str_of v
  end.

(** Lines 73-112: the body of the inner [try]. *)
Definition gemini_try (m : GenerativeModel) (user_prompt : JValue) (prompt : str)
  : M (Flow str) :=
  response <- ([RemoteCall prompt generation_config],
               generate_content m prompt generation_config) ;;
  match candidates response with
  | [] =>
      let msg := block_reason_msg response in
      log WARNING (lit "Gemini response blocked or empty. Prompt: '"
                   ++ py_format user_prompt ++ lit "'. Reason: " ++ msg) ;;;
      ret (Returned (error_response msg 400))
  | _ :: _ =>
      t <- lift (text response) ;;
      let story_continuation := strip t in
      let story_continuation :=
        if negb (truthy story_continuation) then fallback_story
        else story_continuation in
      ret (Fell story_continuation)
  end.

(** Lines 118-137: the inner [except]. *)
Definition gemini_except (e_gemini : Exn) : M (Flow str) :=
  log_exc ERROR (lit "Error during Google Gemini API call: " ++ exn_str e_gemini)
          e_gemini ;;;
  let '(error_message, status_code) := classify e_gemini in
  ret (Returned (error_response (service_error_prefix ++ error_message) status_code)).

(** Lines 57-140: the body of the outer [try]. *)
Definition request_try (m : GenerativeModel) (body : Body) : M HttpResponse :=
  data <- match body with
          | Unparsable e => raise e
          | Parsed v => ret v
          end ;;
  user_prompt <- lift (py_get data (lit "prompt")) ;;
  if negb (py_truthy user_prompt) then
    ret (error_response (lit "Prompt is missing") 400)
  else
    n <- lift (py_len user_prompt) ;;
    if n >? max_prompt_len then
      ret (error_response (lit "Prompt is too long (max 2000 characters for this demo)") 400)
    else
      let prompt := full_prompt (py_format user_prompt) in
      flow <- try_except (gemini_try m user_prompt prompt) gemini_except ;;
      match flow with
      | Returned r => ret r
      | Fell story_continuation =>
          ret (mkHttp 200 (jsonify [(lit "story", story_continuation)]))
      end.

(** Lines 142-144: the outer [except]. *)
Definition request_except (e : Exn) : M HttpResponse :=
  log_exc ERROR (lit "Error in /generate_story endpoint: " ++ exn_str e) e ;;;
  ret (error_response (internal_error_prefix ++ exn_str e) 500).

(** [POST /generate_story] *)
Definition generate_story_api (app : App) (body : Body) : M HttpResponse :=
  if negb (key_truthy (google_api_key app)) then
    ret (error_response (lit "Google API key not configured on the server.") 500)
  else
    match model app with
    | None =>
        ret (error_response
               (lit "Google Gemini model '" ++ MODEL_NAME
                ++ lit "' not initialized. Check server logs.") 500)
    | Some m => try_except (request_try m body) request_except
    end.

End Handler.

(** A request body [{"prompt": s}]. *)
Definition prompt_body (s : str) : Body := Parsed (JObj [(lit "prompt", JStr s)]).

(** An application whose start-up succeeded. *)
Definition ready (app : App) (m : GenerativeModel) : Prop :=
  key_truthy (google_api_key app) = true /\ model app = Some m.

(** The prompt is a string that passes the two checks of lines 60-64. *)
Definition accepted (s : str) : Prop := 1 <= len s <= max_prompt_len.

(* ================================================================== *)
(** ** Vocabulary of the statements *)
(* ================================================================== *)

(** [needle] occurs in [hay]. *)
Definition occurs (needle hay : str) : Prop :=
  exists pre post, hay = pre ++ needle ++ post.

(** Lines 57-58 when they do not raise: the value bound to [user_prompt]. *)
Definition user_prompt_of (body : Body) : option JValue :=
  match body with
  | Parsed (JObj fields) =>
      Some (match dict_lookup (lit "prompt") fields with
            | Some v => v
            | None => JNull
            end)
  | _ => None
  end.

(** The body parses to a JSON object. *)
Definition is_json_object (body : Body) : bool :=
  match body with
  | Parsed (JObj _) => true
  | _ => false
  end.

(** The value passes the two checks of lines 60-64. *)
Definition passes_validation (v : JValue) : Prop :=
  py_truthy v = true /\ exists n, py_len v = inr n /\ n <= max_prompt_len.

(** The three indicators of lines 127-133, on the failure's message and on
    the name of its type. *)
Definition auth_indicator (e : Exn) : Prop :=
  occurs (lit "API key not valid") (error_message_of e)
  \/ occurs (lit "PermissionDenied") (exn_type e).

Definition quota_indicator (e : Exn) : Prop :=
  occurs (lit "Quota") (error_message_of e)
  \/ occurs (lit "ResourceExhausted") (exn_type e).

Definition invalid_indicator (e : Exn) : Prop :=
  occurs (lit "Invalid") (error_message_of e)
  \/ occurs (lit "BadRequest") (exn_type e).

(** The response of the inner [except] for the failure [e]. *)
Definition classified_response (e : Exn) : HttpResponse :=
  error_response (service_error_prefix ++ fst (classify e)) (snd (classify e)).

(** The log record of the inner [except]. *)
Definition gemini_error_log (e : Exn) : Event :=
  Log ERROR (lit "Error during Google Gemini API call: " ++ exn_str e) (Some e).

(** The exception that stops lines 57-58, if any: [get_json] raises, or
    the parsed document has no [get] method. *)
Definition request_failure (body : Body) : option Exn :=
  match body with
  | Unparsable e => Some e
  | Parsed (JObj _) => None
  | Parsed v => Some (AttributeError v (lit "get"))
  end.

(** The two shapes of an answer of the action route. *)
Definition success_shape (r : HttpResponse) : Prop :=
  status r = 200 /\ exists story, payload r = Json [(lit "story", story)].

Definition failure_shape (r : HttpResponse) : Prop :=
  (status r = 400 \/ status r = 401 \/ status r = 429 \/ status r = 500)
  /\ exists msg, payload r = Json [(lit "error", msg)].

(** Line 76, [# candidate_count=1, # Default is 1]: the call leaves the
    candidate count out because the service's default is one.  The number
    of candidates a configuration asks for is the count it sets, or that
    default when it sets none. *)
Definition default_candidate_count : Z := 1.

Definition requested_candidates (config : GenerationConfig) : Z :=
  match candidate_count config with
  | Some n => n
  | None => default_candidate_count
  end.

(** The fixed text before and after the user's prompt in the template. *)
Definition template_before : str :=
  lit "You are a creative storyteller." ++ [newline]
  ++ lit "User's story starter: " ++ [dquote].

Definition template_after : str :=
  [dquote] ++ [newline]
  ++ lit "Continue this story, making it engaging and imaginative. Keep the continuation concise, around 150-200 words."
  ++ [newline]
  ++ lit "Story continuation:".

(** Start-up did not end with a key and a model: the variable is unset or
    empty, or one of the two SDK calls raised. *)
Definition init_failed (env : Env) : Prop :=
  key_truthy (getenv env (lit "GOOGLE_API_KEY")) = false
  \/ (exists key e, getenv env (lit "GOOGLE_API_KEY") = Some key
                    /\ genai_configure env key = inl e)
  \/ (exists e, genai_GenerativeModel env MODEL_NAME = inl e).

(** The values start-up leaves in the two globals. *)
Definition configured_key (env : Env) : option str :=
  match getenv env (lit "GOOGLE_API_KEY") with
  | Some key =>
      if truthy key then
        match genai_configure env key with
        | inl _ => None
        | inr _ => Some key
        end
      else Some key
  | None => None
  end.

Definition initialized_model (env : Env) (key : option str) : option GenerativeModel :=
  if key_truthy key then
    match genai_GenerativeModel env MODEL_NAME with
    | inl _ => None
    | inr m => Some m
    end
  else None.

Definition unavailable (app : App) : Prop :=
  key_truthy (google_api_key app) = false \/ model app = None.

(** Fixtures for the examples. *)
Definition repr_stub (v : JValue) : str := lit "<repr>".

Definition stub_response (t : str) : GenerateContentResponse :=
  mkResponse [mkCandidate [t] 1] None (inr t).

Definition stub_model (t : str) : GenerativeModel :=
  mkModel (fun _ _ => inr (stub_response t)).

Definition failing_model (e : Exn) : GenerativeModel :=
  mkModel (fun _ _ => inl e).

Definition blocked_model (fb : option PromptFeedback) : GenerativeModel :=
  mkModel (fun _ _ => inr (mkResponse [] fb (inl (mkExn (lit "<class 'ValueError'>") (lit "no candidates") None [])))).

Definition ready_app (m : GenerativeModel) : App :=
  mkApp (Some (lit "test-key")) (Some m).

Definition once_upon_a_time : str := lit "Once upon a time".

Definition long_prompt : str := repeat 97%N 2001.

Definition env_without_key : Env :=
  mkEnv (fun _ => None) (fun _ => inr tt) (fun _ => inr (stub_model []))
        (fun _ => Some (lit "<html></html>")).

Definition quota_exn : Exn :=
  mkExn (lit "<class 'google.api_core.exceptions.ResourceExhausted'>")
        (lit "429 Quota exceeded for quota metric")
        (Some (lit "Quota exceeded for quota metric"))
        [lit "generate_content"].

Definition hero_text : str := lit " A hero arose. ".

(** Failures that the type name does not classify: only the message
    attribute, or only [str(e)], holds an indicator or none. *)
Definition quota_message_exn : Exn :=
  mkExn (lit "<class 'Exception'>") (lit "request refused")
        (Some (lit "Quota exceeded for this project"))
        [lit "generate_content"].

Definition invalid_str_exn : Exn :=
  mkExn (lit "<class 'ValueError'>") (lit "Invalid model name") None
        [lit "generate_content"].

Definition plain_exn : Exn :=
  mkExn (lit "<class 'ConnectionError'>") (lit "connection reset by peer") None
        [lit "generate_content"].

Definition safety_feedback : PromptFeedback :=
  mkPromptFeedback (mkBlockReason 1 (lit "SAFETY")).

(* ================================================================== *)
(** ** [app.py]: the [__main__] block *)
(* ================================================================== *)

(** The keyword arguments of [app.run]. *)
Record RunConfig := mkRunConfig {
  host : str;
  port : Z;
  debug : bool
}.

Definition is_ascii (c : char) : bool := (c <? 128)%N.

(** [c.lower()] of an ASCII code point. *)
Definition ascii_lower (c : char) : char :=
  if ((65 <=? c) && (c <=? 90))%N then (c + 32)%N else c.

(** [os.getenv(name, default)] *)
Definition getenv_default (env : Env) (name default : str) : str :=
  match getenv env name with
  | Some v => v
  | None => default
  end.

Definition key_warning : str :=
  lit "CRITICAL: GOOGLE_API_KEY is not set. The application will not be able to contact the Gemini API.".

Definition model_warning : str :=
  lit "CRITICAL: Google Gemini model '" ++ MODEL_NAME
  ++ lit "' failed to initialize. Story generation will not work.".

Section Main.

(** [s.lower()] of a string that holds a code point outside ASCII (the
    Unicode case mapping). *)
Variable unicode_lower : str -> str.

(** [s.lower()] *)
Definition lower (s : str) : str :=
  if forallb is_ascii s then map ascii_lower s else unicode_lower s.

(** Line 155: the [debug] argument. *)
Definition debug_flag (env : Env) : bool :=
  PyStr.eqb (lower (getenv_default env (lit "FLASK_DEBUG") (lit "False")))
            (lit "true").

(** Lines 146-155: the two warnings, then the arguments [app.run] is
    called with. *)
Definition main (env : Env) (app : App) : M RunConfig :=
  (if negb (key_truthy (google_api_key app)) then log WARNING key_warning
   else ret tt) ;;;
  (match model app with
   | None => log WARNING model_warning
   | Some _ => ret tt
   end) ;;;
  ret (mkRunConfig (lit "0.0.0.0") 5000 (debug_flag env)).

(** [python app.py]: the module-level code, then the [__main__] block. *)
Definition program (env : Env) : M (App * RunConfig) :=
  app <- startup env ;;
  cfg <- main env app ;;
  ret (app, cfg).

End Main.

(** The string is one of the sixteen spellings of "true" in upper and
    lower case. *)
Definition spells_true (v : str) : Prop :=
  exists t r u e,
    v = [t; r; u; e]
    /\ (t = 116 \/ t = 84)%N /\ (r = 114 \/ r = 82)%N
    /\ (u = 117 \/ u = 85)%N /\ (e = 101 \/ e = 69)%N.

(** The log records of start-up. *)
Definition key_not_set_log : Event :=
  Log ERROR (lit "Error: GOOGLE_API_KEY environment variable not set.") None.

Definition key_configured_log : Event :=
  Log INFO (lit "Google Gemini API key configured.") None.

Definition configure_error_log (e : Exn) : Event :=
  Log ERROR (lit "Error configuring Google Gemini API: " ++ exn_str e) None.

Definition model_initialized_log : Event :=
  Log INFO (lit "Google Gemini model '" ++ MODEL_NAME ++ lit "' initialized.") None.

Definition model_skipped_log : Event :=
  Log WARNING (lit "Google Gemini model not initialized due to missing API key.") None.

Definition model_error_log (e : Exn) : Event :=
  Log ERROR (lit "Error initializing Google Gemini model '" ++ MODEL_NAME
             ++ lit "': " ++ exn_str e) None.

(** The two answers of the guards of lines 51-54. *)
Definition key_missing_response : HttpResponse :=
  mkHttp 500 (Json [(lit "error", lit "Google API key not configured on the server.")]).

Definition model_missing_response : HttpResponse :=
  mkHttp 500
    (Json [(lit "error",
            lit "Google Gemini model 'gemini-1.5-flash-latest' not initialized. Check server logs.")]).

(** The number of code points the template adds around the prompt. *)
Definition template_len : Z := len template_before + len template_after.

(** More fixtures for the examples. *)
Definition env_with (key : option str) (configure : Exn + unit)
           (make : Exn + GenerativeModel) (flask_debug : option str) : Env :=
  mkEnv (fun name =>
           if PyStr.eqb name (lit "GOOGLE_API_KEY") then key
           else if PyStr.eqb name (lit "FLASK_DEBUG") then flask_debug
           else None)
        (fun _ => configure)
        (fun _ => make)
        (fun _ => Some (lit "<html></html>")).

Definition sdk_exn : Exn :=
  mkExn (lit "<class 'ValueError'>") (lit "bad configuration") None
        [lit "configure"].

Definition test_key : str := lit "test-key".

Definition env_ok : Env :=
  env_with (Some test_key) (inr tt) (inr (stub_model hero_text)) (Some (lit "TRUE")).

Definition env_unset : Env :=
  env_with None (inr tt) (inr (stub_model hero_text)) None.

Definition env_configure_fails : Env :=
  env_with (Some test_key) (inl sdk_exn) (inr (stub_model hero_text)) None.

Definition env_model_fails : Env :=
  env_with (Some test_key) (inr tt) (inl sdk_exn) None.

Definition unicode_lower_stub (s : str) : str := s.

Definition text_fails_model (e : Exn) : GenerativeModel :=
  mkModel (fun _ _ => inr (mkResponse [mkCandidate [] 3] None (inl e))).

Definition blocked_candidate_exn : Exn :=
  mkExn (lit "<class 'ValueError'>")
        (lit "The response.text quick accessor only works when the response contains a valid Part")
        None [lit "text"].

Section PyStrFacts.

Lemma startswith_iff (p s : str) :
  startswith p s = true <-> exists post, s = p ++ post.
Proof.
  revert s; induction p as [|a p IH]; intros s; simpl.
  - split; [intros _; now exists s | reflexivity].
  - destruct s as [|b s].
    + split; [discriminate | intros [post H]; discriminate].
    + rewrite andb_true_iff, N.eqb_eq, IH. split.
      * intros [-> [post ->]]. now exists post.
      * intros [post H]. injection H as -> ->. split; [reflexivity | now exists post].
Qed.

Lemma contains_iff (needle hay : str) :
  contains needle hay = true <-> exists pre post, hay = pre ++ needle ++ post.
Proof.
  induction hay as [|c hay IH]; simpl.
  - rewrite orb_false_r, startswith_iff. split.
    + intros [post H]. now exists [], post.
    + intros [pre [post H]].
      destruct pre; [now exists post | discriminate].
  - rewrite orb_true_iff, startswith_iff, IH. split.
    + intros [[post H] | [pre [post H]]].
      * now exists [], post.
      * exists (c :: pre), post. simpl. now rewrite H.
    + intros [pre [post H]]. destruct pre as [|d pre]; simpl in H.
      * left. now exists post.
      * right. injection H as _ H. now exists pre, post.
Qed.

Lemma lstrip_split (s : str) :
  exists pre, s = pre ++ lstrip s /\ all_space pre = true.
Proof.
  induction s as [|c s [pre [H1 H2]]]; simpl.
  - now exists [].
  - destruct (isspace c) eqn:E.
    + exists (c :: pre). simpl. rewrite E, H2. split; [now rewrite <- H1 | reflexivity].
    + now exists [].
Qed.

Lemma lstrip_head (s : str) :
  match lstrip s with [] => True | c :: _ => isspace c = false end.
Proof.
  induction s as [|c s IH]; simpl; [exact I|].
  destruct (isspace c) eqn:E; [exact IH | exact E].
Qed.

Lemma all_space_rev (s : str) : all_space (rev s) = all_space s.
Proof.
  unfold all_space. induction s as [|c s IH]; simpl; [reflexivity|].
  rewrite forallb_app, IH. simpl. rewrite andb_true_r. apply andb_comm.
Qed.

Lemma rstrip_split (s : str) :
  exists post, s = rstrip s ++ post /\ all_space post = true.
Proof.
  unfold rstrip. destruct (lstrip_split (rev s)) as [pre [H1 H2]].
  exists (rev pre). split.
  - rewrite <- rev_app_distr, <- H1. now rewrite rev_involutive.
  - now rewrite all_space_rev.
Qed.

Lemma lstrip_nonspace_head (c : char) (s : str) :
  isspace c = false -> lstrip (c :: s) = c :: s.
Proof. intros H. simpl. now rewrite H. Qed.

Lemma lstrip_app_nonspace (s : str) (c : char) :
  isspace c = false -> exists t, lstrip (s ++ [c]) = t ++ [c].
Proof.
  intros H. induction s as [|d s [t IH]]; simpl.
  - rewrite H. now exists [].
  - destruct (isspace d); [now exists t | now exists (d :: s)].
Qed.

(** Stripping the right end keeps the first code point of a string that
    starts with a non-space. *)
Lemma rstrip_keeps_head (c : char) (s : str) :
  isspace c = false -> exists t, rstrip (c :: s) = c :: t.
Proof.
  intros H. unfold rstrip. simpl.
  destruct (lstrip_app_nonspace (rev s) c H) as [t Ht].
  rewrite Ht, rev_app_distr. simpl. now exists (rev t).
Qed.

Lemma rstrip_last (s : str) (d : char) :
  rstrip s <> [] -> isspace (last (rstrip s) d) = false.
Proof.
  unfold rstrip. intros Hne.
  pose proof (lstrip_head (rev s)) as Hh.
  destruct (lstrip (rev s)) as [|c t]; [now elim Hne|].
  simpl. rewrite last_last. exact Hh.
Qed.

(** What [strip] returns: the middle of the string, between two runs of
    whitespace, with no whitespace at either end. *)
Lemma strip_spec (s : str) :
  (exists pre post,
      s = pre ++ strip s ++ post
      /\ all_space pre = true /\ all_space post = true)
  /\ trimmed (strip s) = true.
Proof.
  unfold strip. split.
  - destruct (lstrip_split s) as [pre [H1 H2]].
    destruct (rstrip_split (lstrip s)) as [post [H3 H4]].
    exists pre, post. repeat split; try assumption.
    now rewrite <- H3.
  - pose proof (lstrip_head s) as Hh.
    destruct (lstrip s) as [|c t] eqn:E; [reflexivity|].
    destruct (rstrip_keeps_head c t Hh) as [u Hu].
    pose proof (rstrip_last (c :: t) c) as Hl.
    rewrite Hu in *. unfold trimmed.
    rewrite Hh, Hl by discriminate. reflexivity.
Qed.

Lemma strip_all_space (s : str) : all_space s = true -> strip s = [].
Proof.
  intros H. unfold strip.
  assert (L : lstrip s = []).
  { induction s as [|c s IH]; simpl in *; [reflexivity|].
    apply andb_true_iff in H as [-> H]. now apply IH. }
  now rewrite L.
Qed.

End PyStrFacts.

(* ================================================================== *)
(** ** The action route, step by step *)
(* ================================================================== *)

Section HandlerFacts.

Variable py_str_of : JValue -> str.

Lemma occurs_contains (needle hay : str) :
  occurs needle hay <-> contains needle hay = true.
Proof. unfold occurs. symmetry. apply contains_iff. Qed.

Lemma bind_ret {A B : Type} (a : A) (k : A -> M B) : bind (ret a) k = k a.
Proof. unfold bind, ret. now destruct (k a). Qed.

Lemma bind_lift_ok {A B : Type} (a : A) (k : A -> M B) :
  bind (lift (inr a)) k = k a.
Proof. exact (bind_ret a k). Qed.

Lemma bind_lift_raise {A B : Type} (e : Exn) (k : A -> M B) :
  bind (lift (inl e)) k = raise e.
Proof. reflexivity. Qed.

Lemma bind_raise {A B : Type} (e : Exn) (k : A -> M B) :
  bind (raise e) k = raise e.
Proof. reflexivity. Qed.

Lemma try_except_ok {A : Type} (t : list Event) (a : A) (h : Exn -> M A) :
  try_except (t, inr a) h = (t, inr a).
Proof. reflexivity. Qed.

Lemma gemini_except_eq (e : Exn) :
  gemini_except e = ([gemini_error_log e], inr (Returned (classified_response e))).
Proof.
  unfold gemini_except, classified_response.
  destruct (classify e) as [msg code]. reflexivity.
Qed.

(** The inner [try] statement never lets an exception out. *)
Lemma gemini_handled (m : GenerativeModel) (v : JValue) (p : str) :
  try_except (gemini_try py_str_of m v p) gemini_except =
  match generate_content m p generation_config with
  | inl e =>
      ([RemoteCall p generation_config; gemini_error_log e],
       inr (Returned (classified_response e)))
  | inr response =>
      match candidates response with
      | [] =>
          ([RemoteCall p generation_config;
            Log WARNING (lit "Gemini response blocked or empty. Prompt: '"
                         ++ py_format py_str_of v ++ lit "'. Reason: "
                         ++ block_reason_msg response) None],
           inr (Returned (error_response (block_reason_msg response) 400)))
      | _ :: _ =>
          match text response with
          | inl e =>
              ([RemoteCall p generation_config; gemini_error_log e],
               inr (Returned (classified_response e)))
          | inr t =>
              ([RemoteCall p generation_config],
               inr (Fell (if negb (truthy (strip t)) then fallback_story
                          else strip t)))
          end
      end
  end.
Proof.
  unfold gemini_try, bind, try_except.
  destruct (generate_content m p generation_config) as [e|response].
  - now rewrite gemini_except_eq.
  - destruct (candidates response) as [|c cs].
    + reflexivity.
    + unfold lift. destruct (text response) as [e|t].
      * now rewrite gemini_except_eq.
      * reflexivity.
Qed.

(** With a configured application the route is the outer [try]. *)
Lemma api_ready (app : App) (m : GenerativeModel) (body : Body) :
  ready app m ->
  generate_story_api py_str_of app body
  = try_except (request_try py_str_of m body) request_except.
Proof.
  intros [Hk Hm]. unfold generate_story_api. now rewrite Hk, Hm.
Qed.

Lemma request_except_eq (e : Exn) :
  request_except e
  = ([Log ERROR (lit "Error in /generate_story endpoint: " ++ exn_str e) (Some e)],
     inr (error_response (internal_error_prefix ++ exn_str e) 500)).
Proof. reflexivity. Qed.

(** The outer [try] once the prompt has passed the checks: what is left is
    the inner [try] statement and the final [return]. *)
Lemma request_try_accepted (m : GenerativeModel) (body : Body) (v : JValue) :
  user_prompt_of body = Some v ->
  passes_validation v ->
  request_try py_str_of m body
  = (flow <- try_except
               (gemini_try py_str_of m v (full_prompt (py_format py_str_of v)))
               gemini_except ;;
     match flow with
     | Returned r => ret r
     | Fell story_continuation =>
         ret (mkHttp 200 (jsonify [(lit "story", story_continuation)]))
     end).
Proof.
  intros Hp [Ht [n [Hn Hle]]].
  destruct body as [e|data]; [discriminate|].
  destruct data; try discriminate.
  injection Hp as Hp.
  unfold request_try. rewrite bind_ret. unfold py_get.
  rewrite bind_lift_ok, Hp, Ht. cbn [negb]. rewrite Hn, bind_lift_ok.
  destruct (n >? max_prompt_len) eqn:E; [|reflexivity].
  apply Z.gtb_lt in E. lia.
Qed.

(** The remote call raised. *)
Lemma api_remote_raised (app : App) (m : GenerativeModel) (body : Body)
      (v : JValue) (e : Exn) :
  ready app m -> user_prompt_of body = Some v -> passes_validation v ->
  generate_content m (full_prompt (py_format py_str_of v)) generation_config = inl e ->
  generate_story_api py_str_of app body
  = ([RemoteCall (full_prompt (py_format py_str_of v)) generation_config;
      gemini_error_log e],
     inr (classified_response e)).
Proof.
  intros Hr Hp Hv He.
  rewrite (api_ready app m body Hr), (request_try_accepted m body v Hp Hv).
  rewrite gemini_handled, He. reflexivity.
Qed.

(** The remote call returned no candidate. *)
Lemma api_no_candidates (app : App) (m : GenerativeModel) (body : Body)
      (v : JValue) (response : GenerateContentResponse) :
  ready app m -> user_prompt_of body = Some v -> passes_validation v ->
  generate_content m (full_prompt (py_format py_str_of v)) generation_config
  = inr response ->
  candidates response = [] ->
  generate_story_api py_str_of app body
  = ([RemoteCall (full_prompt (py_format py_str_of v)) generation_config;
      Log WARNING (lit "Gemini response blocked or empty. Prompt: '"
                   ++ py_format py_str_of v ++ lit "'. Reason: "
                   ++ block_reason_msg response) None],
     inr (error_response (block_reason_msg response) 400)).
Proof.
  intros Hr Hp Hv He Hc.
  rewrite (api_ready app m body Hr), (request_try_accepted m body v Hp Hv).
  rewrite gemini_handled, He, Hc. reflexivity.
Qed.

(** The remote call returned a candidate, and reading its text raised. *)
Lemma api_text_raised (app : App) (m : GenerativeModel) (body : Body)
      (v : JValue) (response : GenerateContentResponse) (e : Exn) :
  ready app m -> user_prompt_of body = Some v -> passes_validation v ->
  generate_content m (full_prompt (py_format py_str_of v)) generation_config
  = inr response ->
  candidates response <> [] ->
  text response = inl e ->
  generate_story_api py_str_of app body
  = ([RemoteCall (full_prompt (py_format py_str_of v)) generation_config;
      gemini_error_log e],
     inr (classified_response e)).
Proof.
  intros Hr Hp Hv He Hc Ht.
  rewrite (api_ready app m body Hr), (request_try_accepted m body v Hp Hv).
  rewrite gemini_handled, He.
  destruct (candidates response); [now elim Hc|].
  rewrite Ht. reflexivity.
Qed.

(** The remote call returned a candidate with a text. *)
Lemma api_story (app : App) (m : GenerativeModel) (body : Body)
      (v : JValue) (response : GenerateContentResponse) (t : str) :
  ready app m -> user_prompt_of body = Some v -> passes_validation v ->
  generate_content m (full_prompt (py_format py_str_of v)) generation_config
  = inr response ->
  candidates response <> [] ->
  text response = inr t ->
  generate_story_api py_str_of app body
  = ([RemoteCall (full_prompt (py_format py_str_of v)) generation_config],
     inr (mkHttp 200
            (jsonify [(lit "story",
                       if negb (truthy (strip t)) then fallback_story
                       else strip t)]))).
Proof.
  intros Hr Hp Hv He Hc Ht.
  rewrite (api_ready app m body Hr), (request_try_accepted m body v Hp Hv).
  rewrite gemini_handled, He.
  destruct (candidates response); [now elim Hc|].
  rewrite Ht. reflexivity.
Qed.

(** A request that passes the checks calls the remote service once, with
    the templated prompt and the fixed configuration. *)
Lemma api_accepted_calls (app : App) (m : GenerativeModel) (body : Body)
      (v : JValue) :
  ready app m -> user_prompt_of body = Some v -> passes_validation v ->
  remote_calls (trace (generate_story_api py_str_of app body))
  = [RemoteCall (full_prompt (py_format py_str_of v)) generation_config].
Proof.
  intros Hr Hp Hv.
  rewrite (api_ready app m body Hr), (request_try_accepted m body v Hp Hv).
  rewrite gemini_handled.
  destruct (generate_content m _ generation_config) as [e|response];
    [reflexivity|].
  destruct (candidates response); [reflexivity|].
  destruct (text response); reflexivity.
Qed.

(** Line 60-61: a falsy prompt. *)
Lemma api_prompt_missing (app : App) (m : GenerativeModel) (body : Body)
      (v : JValue) :
  ready app m -> user_prompt_of body = Some v -> py_truthy v = false ->
  generate_story_api py_str_of app body
  = ([], inr (error_response (lit "Prompt is missing") 400)).
Proof.
  intros Hr Hp Ht. rewrite (api_ready app m body Hr).
  destruct body as [e|data]; [discriminate|].
  destruct data; try discriminate.
  injection Hp as Hp.
  unfold request_try. rewrite bind_ret. unfold py_get.
  rewrite bind_lift_ok, Hp, Ht. reflexivity.
Qed.

(** Line 63-64: a prompt with a length above the limit. *)
Lemma api_prompt_too_long (app : App) (m : GenerativeModel) (body : Body)
      (v : JValue) (n : Z) :
  ready app m -> user_prompt_of body = Some v -> py_truthy v = true ->
  py_len v = inr n -> n > max_prompt_len ->
  generate_story_api py_str_of app body
  = ([], inr (error_response
                (lit "Prompt is too long (max 2000 characters for this demo)") 400)).
Proof.
  intros Hr Hp Ht Hn Hgt. rewrite (api_ready app m body Hr).
  destruct body as [e|data]; [discriminate|].
  destruct data; try discriminate.
  injection Hp as Hp.
  unfold request_try. rewrite bind_ret. unfold py_get.
  rewrite bind_lift_ok, Hp, Ht. cbn [negb]. rewrite Hn, bind_lift_ok.
  destruct (n >? max_prompt_len) eqn:E; [reflexivity|].
  rewrite Z.gtb_ltb, Z.ltb_ge in E. lia.
Qed.

(** Lines 57-58 raise: the outer [except] answers. *)
Lemma api_request_raised (app : App) (m : GenerativeModel) (body : Body)
      (e : Exn) :
  ready app m -> request_try py_str_of m body = ([], inl e) ->
  generate_story_api py_str_of app body
  = ([Log ERROR (lit "Error in /generate_story endpoint: " ++ exn_str e) (Some e)],
     inr (error_response (internal_error_prefix ++ exn_str e) 500)).
Proof.
  intros Hr He. rewrite (api_ready app m body Hr), He. reflexivity.
Qed.

(** Lines 51-54: the two guards. *)
Lemma api_unavailable (app : App) (body : Body) :
  unavailable app ->
  exists msg, msg <> []
    /\ generate_story_api py_str_of app body = ([], inr (error_response msg 500)).
Proof.
  unfold generate_story_api. intros [Hk | Hm].
  - rewrite Hk. eexists. split; [|reflexivity]. discriminate.
  - destruct (key_truthy (google_api_key app)).
    + rewrite Hm. eexists. split; [|reflexivity]. discriminate.
    + eexists. split; [|reflexivity]. discriminate.
Qed.

Lemma accepted_passes (s : str) : accepted s -> passes_validation (JStr s).
Proof.
  unfold accepted, passes_validation, len. intros [H1 H2]. split.
  - destruct s; [simpl in H1; lia | reflexivity].
  - exists (Z.of_nat (length s)). split; [reflexivity | exact H2].
Qed.

Lemma prompt_body_prompt (s : str) : user_prompt_of (prompt_body s) = Some (JStr s).
Proof. reflexivity. Qed.

Lemma ready_app_ready (m : GenerativeModel) : ready (ready_app m) m.
Proof. split; reflexivity. Qed.

End HandlerFacts.

(* ================================================================== *)
(** ** The properties of the specification *)
(* ================================================================== *)

Section Indicators.

Lemma auth_indicator_iff (e : Exn) :
  auth_indicator e <->
  contains (lit "API key not valid") (error_message_of e)
  || contains (lit "PermissionDenied") (exn_type e) = true.
Proof.
  unfold auth_indicator. rewrite orb_true_iff, !occurs_contains. reflexivity.
Qed.

Lemma quota_indicator_iff (e : Exn) :
  quota_indicator e <->
  contains (lit "Quota") (error_message_of e)
  || contains (lit "ResourceExhausted") (exn_type e) = true.
Proof.
  unfold quota_indicator. rewrite orb_true_iff, !occurs_contains. reflexivity.
Qed.

Lemma invalid_indicator_iff (e : Exn) :
  invalid_indicator e <->
  contains (lit "Invalid") (error_message_of e)
  || contains (lit "BadRequest") (exn_type e) = true.
Proof.
  unfold invalid_indicator. rewrite orb_true_iff, !occurs_contains. reflexivity.
Qed.

Lemma not_true_false (b : bool) : ~ b = true -> b = false.
Proof. now destruct b. Qed.

(** The four rules of the inner [except], in their order. *)
Lemma classify_rules (e : Exn) :
  (auth_indicator e -> classify e = (auth_failed_msg, 401))
  /\ (~ auth_indicator e -> quota_indicator e ->
      classify e = (quota_exceeded_msg, 429))
  /\ (~ auth_indicator e -> ~ quota_indicator e -> invalid_indicator e ->
      classify e
      = (lit "Invalid request to Google AI service: " ++ error_message_of e, 400))
  /\ (~ auth_indicator e -> ~ quota_indicator e -> ~ invalid_indicator e ->
      classify e = (error_message_of e, 500)).
Proof.
  rewrite auth_indicator_iff, quota_indicator_iff, invalid_indicator_iff.
  unfold classify. repeat split.
  - intros ->. reflexivity.
  - intros Ha ->. now rewrite (not_true_false _ Ha).
  - intros Ha Hq ->. now rewrite (not_true_false _ Ha), (not_true_false _ Hq).
  - intros Ha Hq Hi.
    now rewrite (not_true_false _ Ha), (not_true_false _ Hq), (not_true_false _ Hi).
Qed.

End Indicators.

Lemma error_message_of_eq (e : Exn) (msg : str) :
  exn_message e = Some msg \/ (exn_message e = None /\ exn_str e = msg) ->
  error_message_of e = msg.
Proof.
  unfold error_message_of. intros [-> | [-> ->]]; reflexivity.
Qed.

Lemma not_occurs (needle hay : str) :
  contains needle hay = false -> ~ occurs needle hay.
Proof.
  intros H Ho. apply occurs_contains in Ho. rewrite H in Ho. discriminate.
Qed.

(** C1.  When the remote call raises, the route answers by the first rule
    that applies, looking for fixed substrings in the failure's message
    (its [message] attribute when it has one, [str(e)] otherwise) and in
    the name of its type: an authentication or permission indicator gives
    401 and a fixed authentication-failed message; otherwise a quota or
    resource-exhaustion indicator gives 429 and a fixed quota-exceeded
    message; otherwise an invalid-request indicator gives 400 and a message
    that carries the failure's own message; otherwise 500 and a message
    that carries the failure's own message. *)
Theorem remote_failure_classified (py_str_of : JValue -> str)
        (app : App) (m : GenerativeModel) (body : Body) (v : JValue) (e : Exn)
        (msg : str) :
  ready app m -> user_prompt_of body = Some v -> passes_validation v ->
  generate_content m (full_prompt (py_format py_str_of v)) generation_config = inl e ->
  exn_message e = Some msg \/ (exn_message e = None /\ exn_str e = msg) ->
  let r := outcome (generate_story_api py_str_of app body) in
  let auth := occurs (lit "API key not valid") msg
              \/ occurs (lit "PermissionDenied") (exn_type e) in
  let quota := occurs (lit "Quota") msg
               \/ occurs (lit "ResourceExhausted") (exn_type e) in
  let invalid := occurs (lit "Invalid") msg
                 \/ occurs (lit "BadRequest") (exn_type e) in
  (auth ->
   r = inr (mkHttp 401
              (Json [(lit "error",
                      lit "An error occurred with the Google AI service: Authentication with Google AI service failed. Check your API key.")])))
  /\ (~ auth -> quota ->
      r = inr (mkHttp 429
                 (Json [(lit "error",
                         lit "An error occurred with the Google AI service: Google AI service quota exceeded. Please check your usage or try again later.")])))
  /\ (~ auth -> ~ quota -> invalid ->
      r = inr (mkHttp 400
                 (Json [(lit "error",
                         lit "An error occurred with the Google AI service: Invalid request to Google AI service: "
                         ++ msg)])))
  /\ (~ auth -> ~ quota -> ~ invalid ->
      r = inr (mkHttp 500
                 (Json [(lit "error",
                         lit "An error occurred with the Google AI service: "
                         ++ msg)]))).
Proof.
  intros Hr Hp Hv He Hmsg r auth quota invalid. subst r auth quota invalid.
  rewrite (api_remote_raised py_str_of app m body v e Hr Hp Hv He).
  unfold outcome, classified_response. cbn [snd].
  destruct (classify_rules e) as [R1 [R2 [R3 R4]]].
  unfold auth_indicator, quota_indicator, invalid_indicator in R1, R2, R3, R4.
  rewrite (error_message_of_eq e msg Hmsg) in R1, R2, R3, R4.
  repeat split; intros.
  - now rewrite R1.
  - now rewrite R2.
  - now rewrite R3.
  - now rewrite R4.
Qed.

Lemma once_upon_a_time_accepted : accepted once_upon_a_time.
Proof. unfold accepted, len, max_prompt_len. simpl. lia. Defined.

Lemma quota_exn_not_auth : ~ auth_indicator quota_exn.
Proof. rewrite auth_indicator_iff. vm_compute. discriminate. Defined.

Lemma quota_exn_quota : quota_indicator quota_exn.
Proof. rewrite quota_indicator_iff. vm_compute. reflexivity. Defined.

Lemma no_indicator (a b : str) (x y : str) :
  contains a x = false -> contains b y = false -> ~ (occurs a x \/ occurs b y).
Proof.
  intros Ha Hb [H | H]; [exact (not_occurs a x Ha H) | exact (not_occurs b y Hb H)].
Defined.

Lemma remote_failure_classified_witness :
  outcome (generate_story_api repr_stub (ready_app (failing_model quota_message_exn))
             (prompt_body once_upon_a_time))
  = inr (mkHttp 429
           (Json [(lit "error",
                   lit "An error occurred with the Google AI service: Google AI service quota exceeded. Please check your usage or try again later.")]))
  /\ outcome (generate_story_api repr_stub (ready_app (failing_model invalid_str_exn))
                (prompt_body once_upon_a_time))
     = inr (mkHttp 400
              (Json [(lit "error",
                      lit "An error occurred with the Google AI service: Invalid request to Google AI service: Invalid model name")]))
  /\ outcome (generate_story_api repr_stub (ready_app (failing_model plain_exn))
                (prompt_body once_upon_a_time))
     = inr (mkHttp 500
              (Json [(lit "error",
                      lit "An error occurred with the Google AI service: connection reset by peer")])).
Proof.
  split; [|split].
  - destruct (remote_failure_classified repr_stub
                (ready_app (failing_model quota_message_exn))
                (failing_model quota_message_exn)
                (prompt_body once_upon_a_time) (JStr once_upon_a_time)
                quota_message_exn (lit "Quota exceeded for this project")
                (ready_app_ready _) (prompt_body_prompt _)
                (accepted_passes _ once_upon_a_time_accepted) eq_refl
                (or_introl eq_refl))
      as [_ [H _]].
    apply H.
    + apply no_indicator; vm_compute; reflexivity.
    + left. apply occurs_contains. vm_compute. reflexivity.
  - destruct (remote_failure_classified repr_stub
                (ready_app (failing_model invalid_str_exn))
                (failing_model invalid_str_exn)
                (prompt_body once_upon_a_time) (JStr once_upon_a_time)
                invalid_str_exn (lit "Invalid model name")
                (ready_app_ready _) (prompt_body_prompt _)
                (accepted_passes _ once_upon_a_time_accepted) eq_refl
                (or_intror (conj eq_refl eq_refl)))
      as [_ [_ [H _]]].
    apply H.
    + apply no_indicator; vm_compute; reflexivity.
    + apply no_indicator; vm_compute; reflexivity.
    + left. apply occurs_contains. vm_compute. reflexivity.
  - destruct (remote_failure_classified repr_stub
                (ready_app (failing_model plain_exn))
                (failing_model plain_exn)
                (prompt_body once_upon_a_time) (JStr once_upon_a_time)
                plain_exn (lit "connection reset by peer")
                (ready_app_ready _) (prompt_body_prompt _)
                (accepted_passes _ once_upon_a_time_accepted) eq_refl
                (or_intror (conj eq_refl eq_refl)))
      as [_ [_ [_ H]]].
    apply H; apply no_indicator; vm_compute; reflexivity.
Defined.

(** C2.  With a configured application: a prompt string of length 1 to
    2000 passes the checks and the remote service is called (once, with
    the templated prompt); a missing key, a [null] or empty prompt gives
    exactly [400 {"error": "Prompt is missing"}] and a prompt longer than
    2000 code points gives 400, both without any call of the remote
    service. *)
Theorem input_length_gate (py_str_of : JValue -> str)
        (app : App) (m : GenerativeModel) :
  ready app m ->
  (forall body s,
      user_prompt_of body = Some (JStr s) -> 1 <= len s <= 2000 ->
      remote_calls (trace (generate_story_api py_str_of app body))
      = [RemoteCall (full_prompt s) generation_config])
  /\ (forall fields,
         dict_lookup (lit "prompt") fields = None ->
         generate_story_api py_str_of app (Parsed (JObj fields))
         = ([], inr (mkHttp 400 (Json [(lit "error", lit "Prompt is missing")]))))
  /\ (forall body v,
         user_prompt_of body = Some v -> v = JNull \/ v = JStr [] ->
         generate_story_api py_str_of app body
         = ([], inr (mkHttp 400 (Json [(lit "error", lit "Prompt is missing")]))))
  /\ (forall body s,
         user_prompt_of body = Some (JStr s) -> len s > 2000 ->
         generate_story_api py_str_of app body
         = ([], inr (mkHttp 400
                       (Json [(lit "error",
                               lit "Prompt is too long (max 2000 characters for this demo)")])))).
Proof.
  intros Hr. repeat split.
  - intros body s Hp Hs.
    exact (api_accepted_calls py_str_of app m body (JStr s) Hr Hp
             (accepted_passes s Hs)).
  - intros fields Hf.
    apply (api_prompt_missing py_str_of app m _ JNull Hr); [|reflexivity].
    simpl. now rewrite Hf.
  - intros body v Hp [-> | ->];
      now apply (api_prompt_missing py_str_of app m body _ Hr Hp).
  - intros body s Hp Hs.
    apply (api_prompt_too_long py_str_of app m body (JStr s) (len s) Hr Hp);
      [|reflexivity|exact Hs].
    destruct s; [discriminate Hs | reflexivity].
Qed.

Lemma long_prompt_len : len long_prompt > 2000.
Proof. vm_compute. reflexivity. Defined.

Lemma input_length_gate_witness :
  remote_calls (trace (generate_story_api repr_stub (ready_app (stub_model hero_text))
                         (prompt_body once_upon_a_time)))
  = [RemoteCall (full_prompt once_upon_a_time) generation_config]
  /\ generate_story_api repr_stub (ready_app (stub_model hero_text)) (Parsed (JObj []))
     = ([], inr (mkHttp 400 (Json [(lit "error", lit "Prompt is missing")])))
  /\ generate_story_api repr_stub (ready_app (stub_model hero_text))
       (prompt_body long_prompt)
     = ([], inr (mkHttp 400
                   (Json [(lit "error",
                           lit "Prompt is too long (max 2000 characters for this demo)")]))).
Proof.
  destruct (input_length_gate repr_stub (ready_app (stub_model hero_text))
              (stub_model hero_text) (ready_app_ready _))
    as [H1 [H2 [_ H4]]].
  split; [|split].
  - exact (H1 _ _ (prompt_body_prompt _) once_upon_a_time_accepted).
  - exact (H2 [] eq_refl).
  - exact (H4 _ _ (prompt_body_prompt _) long_prompt_len).
Defined.

Lemma outcome_bind {A B : Type} (m : M A) (k : A -> M B) :
  outcome (bind m k)
  = match outcome m with
    | inl e => inl e
    | inr a => outcome (k a)
    end.
Proof.
  destruct m as [t [e|a]]; [reflexivity|].
  unfold outcome, bind. cbn [snd]. now destruct (k a).
Qed.

Lemma configure_api_key_outcome (env : Env) :
  outcome (configure_api_key env) = inr (configured_key env).
Proof.
  unfold configure_api_key, configured_key.
  destruct (getenv env (lit "GOOGLE_API_KEY")) as [key|]; [|reflexivity].
  destruct (truthy key); [|reflexivity].
  destruct (genai_configure env key) as [e|[]]; reflexivity.
Qed.

Lemma initialize_model_outcome (env : Env) (key : option str) :
  outcome (initialize_model env key) = inr (initialized_model env key).
Proof.
  unfold initialize_model, initialized_model.
  destruct (key_truthy key); [|reflexivity].
  destruct (genai_GenerativeModel env MODEL_NAME) as [e|m]; reflexivity.
Qed.

Lemma startup_outcome (env : Env) :
  outcome (startup env)
  = inr (mkApp (configured_key env)
               (initialized_model env (configured_key env))).
Proof.
  unfold startup.
  rewrite outcome_bind, configure_api_key_outcome.
  rewrite outcome_bind, initialize_model_outcome. reflexivity.
Qed.

Lemma init_failed_unavailable (env : Env) :
  init_failed env ->
  unavailable (mkApp (configured_key env)
                     (initialized_model env (configured_key env))).
Proof.
  unfold init_failed, unavailable, initialized_model, configured_key.
  cbn [google_api_key model].
  destruct (getenv env (lit "GOOGLE_API_KEY")) as [key|];
    [|intros _; now left].
  cbn [key_truthy].
  destruct (truthy key) eqn:Et; [|intros _; left; exact Et].
  destruct (genai_configure env key) as [e|u] eqn:Ec; [intros _; now left|].
  cbn [key_truthy]. rewrite Et.
  intros [H | [[k [e [Hk He]]] | [e He]]].
  - discriminate.
  - injection Hk as <-. rewrite Ec in He. discriminate.
  - right. now rewrite He.
Qed.

(** C3.  Start-up always completes with some application state; when the
    key is unset or empty, or configuring the SDK or creating the model
    raised, that state has no usable key or no model, and in any such
    state every call of the action route returns 500 with a non-empty
    error message and an empty trace (no remote call is attempted); the
    static page is served whatever the state is. *)
Theorem unconfigured_route_fails (py_str_of : JValue -> str) (env : Env) :
  exists app,
    outcome (startup env) = inr app
    /\ (init_failed env -> unavailable app)
    /\ (forall app' body,
           unavailable app' ->
           exists msg,
             msg <> []
             /\ generate_story_api py_str_of app' body
                = ([], inr (mkHttp 500 (Json [(lit "error", msg)]))))
    /\ (forall page,
           templates env (lit "index.html") = Some page ->
           index env = ([], inr (mkHttp 200 (Html page)))).
Proof.
  exists (mkApp (configured_key env)
                (initialized_model env (configured_key env))).
  split; [apply startup_outcome|].
  split; [apply init_failed_unavailable|]. split.
  - intros app' body Hu. exact (api_unavailable py_str_of app' body Hu).
  - intros page Hp. unfold index, render_template. now rewrite Hp.
Qed.

Lemma env_without_key_failed : init_failed env_without_key.
Proof. left. reflexivity. Defined.

Lemma unconfigured_route_fails_witness :
  exists app,
    outcome (startup env_without_key) = inr app
    /\ unavailable app
    /\ index env_without_key = ([], inr (mkHttp 200 (Html (lit "<html></html>")))).
Proof.
  destruct (unconfigured_route_fails repr_stub env_without_key)
    as [app [Hs [Hu [_ Hi]]]].
  exists app. split; [exact Hs|].
  split; [exact (Hu env_without_key_failed) | exact (Hi _ eq_refl)].
Defined.

Lemma block_reason_msg_nonempty (response : GenerateContentResponse) :
  block_reason_msg response <> [].
Proof.
  unfold block_reason_msg.
  destruct (prompt_feedback response) as [fb|]; [|discriminate].
  destruct (negb (br_value (block_reason fb) =? 0)); discriminate.
Qed.

(** C4.  When the remote call returns a response without candidates, the
    route returns 400 with a JSON object whose only key is [error]; the
    message is non-empty, it names the block reason when the prompt
    feedback carries one, and it is the fixed blocked-content message
    otherwise. *)
Theorem no_candidates_blocked (py_str_of : JValue -> str)
        (app : App) (m : GenerativeModel) (body : Body) (v : JValue)
        (response : GenerateContentResponse) :
  ready app m -> user_prompt_of body = Some v -> passes_validation v ->
  generate_content m (full_prompt (py_format py_str_of v)) generation_config
  = inr response ->
  candidates response = [] ->
  exists msg,
    outcome (generate_story_api py_str_of app body)
    = inr (mkHttp 400 (Json [(lit "error", msg)]))
    /\ msg <> []
    /\ json_field (lit "story") (mkHttp 400 (Json [(lit "error", msg)])) = None
    /\ (forall fb,
           prompt_feedback response = Some fb ->
           br_value (block_reason fb) <> 0 ->
           msg = lit "Content generation blocked due to: "
                 ++ br_name (block_reason fb))
    /\ (prompt_feedback response = None
        \/ (exists fb, prompt_feedback response = Some fb
                       /\ br_value (block_reason fb) = 0) ->
        msg = generic_block_msg).
Proof.
  intros Hr Hp Hv He Hc.
  exists (block_reason_msg response).
  rewrite (api_no_candidates py_str_of app m body v response Hr Hp Hv He Hc).
  split; [reflexivity|]. split; [apply block_reason_msg_nonempty|].
  split; [reflexivity|]. unfold block_reason_msg. split.
  - intros fb -> Hb. apply Z.eqb_neq in Hb. now rewrite Hb.
  - intros [-> | [fb [-> Hb]]]; [reflexivity|]. now rewrite Hb.
Qed.

Lemma no_candidates_blocked_witness :
  outcome (generate_story_api repr_stub
             (ready_app (blocked_model (Some safety_feedback)))
             (prompt_body once_upon_a_time))
  = inr (mkHttp 400
           (Json [(lit "error", lit "Content generation blocked due to: SAFETY")])).
Proof.
  destruct (no_candidates_blocked repr_stub
              (ready_app (blocked_model (Some safety_feedback)))
              (blocked_model (Some safety_feedback))
              (prompt_body once_upon_a_time) (JStr once_upon_a_time) _
              (ready_app_ready _) (prompt_body_prompt _)
              (accepted_passes _ once_upon_a_time_accepted) eq_refl eq_refl)
    as [msg [H1 [_ [_ [H4 _]]]]].
  rewrite H1. rewrite (H4 safety_feedback eq_refl); [reflexivity|].
  simpl. discriminate.
Defined.

(** C5.  When the remote call returns a candidate whose text is empty
    after stripping whitespace, the route returns 200 with the fixed
    fallback sentence as [story]. *)
Theorem empty_text_fallback (py_str_of : JValue -> str)
        (app : App) (m : GenerativeModel) (body : Body) (v : JValue)
        (response : GenerateContentResponse) (t : str) :
  ready app m -> user_prompt_of body = Some v -> passes_validation v ->
  generate_content m (full_prompt (py_format py_str_of v)) generation_config
  = inr response ->
  candidates response <> [] ->
  text response = inr t ->
  strip t = [] ->
  outcome (generate_story_api py_str_of app body)
  = inr (mkHttp 200
           (Json [(lit "story",
                   lit "The AI couldn't come up with a story continuation this time. Try a different prompt!")])).
Proof.
  intros Hr Hp Hv He Hc Ht Hs.
  rewrite (api_story py_str_of app m body v response t Hr Hp Hv He Hc Ht).
  rewrite Hs. reflexivity.
Qed.

Lemma stub_candidates (t : str) : candidates (stub_response t) <> [].
Proof. discriminate. Defined.

Lemma empty_text_fallback_witness :
  outcome (generate_story_api repr_stub (ready_app (stub_model (lit "  ")))
             (prompt_body once_upon_a_time))
  = inr (mkHttp 200
           (Json [(lit "story",
                   lit "The AI couldn't come up with a story continuation this time. Try a different prompt!")])).
Proof.
  exact (empty_text_fallback repr_stub (ready_app (stub_model (lit "  ")))
           (stub_model (lit "  ")) (prompt_body once_upon_a_time)
           (JStr once_upon_a_time) (stub_response (lit "  ")) (lit "  ")
           (ready_app_ready _) (prompt_body_prompt _)
           (accepted_passes _ once_upon_a_time_accepted) eq_refl
           (stub_candidates _) eq_refl eq_refl).
Defined.

(** C6.  When the remote call returns a candidate whose text is not empty
    after stripping whitespace, the route returns 200 with the stripped
    text as [story]: the text without the whitespace at its two ends.  In
    particular the prompt "Once upon a time" against a service that
    returns one candidate with text " A hero arose. " gives
    [200 {"story": "A hero arose."}]. *)
Theorem trimmed_text_story (py_str_of : JValue -> str)
        (app : App) (m : GenerativeModel) :
  ready app m ->
  (forall body v response t,
      user_prompt_of body = Some v -> passes_validation v ->
      generate_content m (full_prompt (py_format py_str_of v)) generation_config
      = inr response ->
      candidates response <> [] ->
      text response = inr t ->
      strip t <> [] ->
      outcome (generate_story_api py_str_of app body)
      = inr (mkHttp 200 (Json [(lit "story", strip t)]))
      /\ trimmed (strip t) = true
      /\ exists pre post,
           t = pre ++ strip t ++ post
           /\ all_space pre = true /\ all_space post = true)
  /\ (forall response c,
         generate_content m (full_prompt (lit "Once upon a time")) generation_config
         = inr response ->
         candidates response = [c] ->
         text response = inr (lit " A hero arose. ") ->
         outcome (generate_story_api py_str_of app
                    (Parsed (JObj [(lit "prompt", JStr (lit "Once upon a time"))])))
         = inr (mkHttp 200 (Json [(lit "story", lit "A hero arose.")]))).
Proof.
  intros Hr. split.
  - intros body v response t Hp Hv He Hc Ht Hs.
    rewrite (api_story py_str_of app m body v response t Hr Hp Hv He Hc Ht).
    destruct (strip_spec t) as [[pre [post Hsplit]] Htr].
    split; [|split; [exact Htr | now exists pre, post]].
    destruct (strip t); [now elim Hs | reflexivity].
  - intros response c He Hc Ht.
    change (Parsed (JObj [(lit "prompt", JStr (lit "Once upon a time"))]))
      with (prompt_body once_upon_a_time).
    rewrite (api_story py_str_of app m (prompt_body once_upon_a_time)
               (JStr (lit "Once upon a time"))
               response (lit " A hero arose. ") Hr eq_refl
               (accepted_passes _ once_upon_a_time_accepted) He);
      [reflexivity | rewrite Hc; discriminate | exact Ht].
Qed.

Lemma trimmed_text_story_witness :
  outcome (generate_story_api repr_stub (ready_app (stub_model hero_text))
             (prompt_body once_upon_a_time))
  = inr (mkHttp 200 (Json [(lit "story", lit "A hero arose.")])).
Proof.
  destruct (trimmed_text_story repr_stub (ready_app (stub_model hero_text))
              (stub_model hero_text) (ready_app_ready _)) as [_ H].
  exact (H (stub_response hero_text) _ eq_refl eq_refl eq_refl).
Defined.

Lemma full_prompt_template (s : str) :
  full_prompt s = template_before ++ s ++ template_after.
Proof.
  unfold full_prompt, template_before, template_after.
  now rewrite <- !app_assoc.
Qed.

(** C7.  For every request that passes the checks the remote service is
    called once, with the user's text verbatim between the two fixed parts
    of the template (inside double quotes) and with the fixed
    configuration: at most 300 output tokens, temperature 0.8, top-p 0.95,
    top-k 40, and a single candidate (the call sets no candidate count and
    so asks for the default of one, as line 76 notes). *)
Theorem remote_invocation (py_str_of : JValue -> str)
        (app : App) (m : GenerativeModel) (body : Body) (v : JValue) :
  ready app m -> user_prompt_of body = Some v -> passes_validation v ->
  exists config,
    remote_calls (trace (generate_story_api py_str_of app body))
    = [RemoteCall (template_before ++ py_format py_str_of v ++ template_after)
                  config]
    /\ (forall s, v = JStr s -> py_format py_str_of v = s)
    /\ last template_before 0%N = dquote
    /\ hd 0%N template_after = dquote
    /\ config = mkGenerationConfig None None (Some 300) (Some 0.8%Q)
                                   (Some 0.95%Q) (Some 40)
    /\ max_output_tokens config = Some 300
    /\ temperature config = Some 0.8%Q
    /\ top_p config = Some 0.95%Q
    /\ top_k config = Some 40
    /\ requested_candidates config = 1.
Proof.
  intros Hr Hp Hv. exists generation_config.
  rewrite (api_accepted_calls py_str_of app m body v Hr Hp Hv).
  rewrite full_prompt_template.
  split; [reflexivity|]. split; [now intros s ->|].
  repeat split.
Qed.

Lemma remote_invocation_witness :
  exists config,
    remote_calls (trace (generate_story_api repr_stub
                           (ready_app (stub_model hero_text))
                           (prompt_body once_upon_a_time)))
    = [RemoteCall (template_before ++ once_upon_a_time ++ template_after) config]
    /\ max_output_tokens config = Some 300
    /\ temperature config = Some 0.8%Q
    /\ top_p config = Some 0.95%Q
    /\ top_k config = Some 40
    /\ requested_candidates config = 1.
Proof.
  destruct (remote_invocation repr_stub (ready_app (stub_model hero_text))
              (stub_model hero_text) (prompt_body once_upon_a_time)
              (JStr once_upon_a_time) (ready_app_ready _) (prompt_body_prompt _)
              (accepted_passes _ once_upon_a_time_accepted))
    as [config [H1 [_ [_ [_ [_ H6]]]]]].
  exists config. split; [exact H1 | exact H6].
Defined.

Lemma outcome_try_except {A : Type} (m : M A) (h : Exn -> M A) :
  outcome (try_except m h)
  = match outcome m with
    | inl e => outcome (h e)
    | inr a => inr a
    end.
Proof.
  destruct m as [t [e|a]]; [|reflexivity].
  unfold outcome, try_except. cbn [snd]. now destruct (h e).
Qed.

(** The action route always returns a response. *)
Lemma api_total (py_str_of : JValue -> str) (app : App) (body : Body) :
  exists r, outcome (generate_story_api py_str_of app body) = inr r.
Proof.
  unfold generate_story_api.
  destruct (negb (key_truthy (google_api_key app))); [now eexists|].
  destruct (model app) as [m|]; [|now eexists].
  rewrite outcome_try_except.
  destruct (outcome (request_try py_str_of m body)) as [e|r];
    now eexists.
Qed.

(** The exception that reaches the outer [except], when one does. *)
Lemma api_outer_except (py_str_of : JValue -> str)
      (app : App) (m : GenerativeModel) (body : Body) (e : Exn) :
  ready app m ->
  outcome (request_try py_str_of m body) = inl e ->
  outcome (generate_story_api py_str_of app body)
  = inr (error_response (internal_error_prefix ++ exn_str e) 500).
Proof.
  intros Hr He.
  rewrite (api_ready py_str_of app m body Hr), outcome_try_except, He.
  reflexivity.
Qed.

Lemma request_try_not_object (py_str_of : JValue -> str)
      (m : GenerativeModel) (body : Body) (e : Exn) :
  request_failure body = Some e ->
  request_try py_str_of m body = ([], inl e).
Proof.
  destruct body as [e'|data]; cbn [request_failure].
  - intros H. injection H as ->. reflexivity.
  - destruct data; intros H; try discriminate; injection H as <-; reflexivity.
Qed.

(** C8, as the specification words it, fails: the message of the catch-all
    answer is not one generic message, it carries the text of the exception
    ([str(e)]), which differs from one request to the next. *)
Lemma unclassified_exception_counterexample :
  outcome (generate_story_api repr_stub (ready_app (stub_model hero_text))
             (Parsed (JArr [])))
  = inr (mkHttp 500
           (Json [(lit "error",
                   lit "An internal server error occurred: 'list' object has no attribute 'get'")]))
  /\ outcome (generate_story_api repr_stub (ready_app (stub_model hero_text))
                (Parsed JNull))
     = inr (mkHttp 500
              (Json [(lit "error",
                      lit "An internal server error occurred: 'NoneType' object has no attribute 'get'")]))
  /\ ~ (exists generic,
          forall body e,
            outcome (request_try repr_stub (stub_model hero_text) body) = inl e ->
            outcome (generate_story_api repr_stub
                       (ready_app (stub_model hero_text)) body)
            = inr (mkHttp 500 (Json [(lit "error", generic)]))).
Proof.
  split; [reflexivity|]. split; [reflexivity|].
  intros [generic H].
  pose proof (H (Parsed (JArr [])) _ eq_refl) as H1.
  pose proof (H (Parsed JNull) _ eq_refl) as H2.
  vm_compute in H1, H2.
  injection H1 as H1. injection H2 as H2.
  rewrite <- H1 in H2. discriminate H2.
Qed.

(** C8, amended.  An exception raised in the handler outside the remote
    call is caught by the outer [except] and answered with status 500 and
    a JSON object whose only key is [error], holding the fixed prefix
    "An internal server error occurred: " followed by the text of the
    exception; the route returns a response for every application state
    and every body, so no exception leaves it; and the response is
    computed from the text of the exception alone, not from its
    traceback, which only goes to the log. *)
Theorem unclassified_exception_caught (py_str_of : JValue -> str)
        (app : App) (m : GenerativeModel) (body : Body) (e : Exn) :
  ready app m ->
  outcome (request_try py_str_of m body) = inl e ->
  outcome (generate_story_api py_str_of app body)
  = inr (mkHttp 500
           (Json [(lit "error",
                   lit "An internal server error occurred: " ++ exn_str e)]))
  /\ (forall app' body',
         exists r, outcome (generate_story_api py_str_of app' body') = inr r)
  /\ (forall e',
         exn_str e' = exn_str e ->
         outcome (request_except e') = outcome (request_except e)).
Proof.
  intros Hr He. split; [|split].
  - exact (api_outer_except py_str_of app m body e Hr He).
  - intros app' body'. apply api_total.
  - intros e' Hs. unfold request_except, outcome. cbn [bind log_exc ret snd List.app].
    now rewrite Hs.
Qed.

Lemma unclassified_exception_caught_witness :
  outcome (generate_story_api repr_stub (ready_app (stub_model hero_text))
             (Parsed (JObj [(lit "prompt", JInt 5)])))
  = inr (mkHttp 500
           (Json [(lit "error",
                   lit "An internal server error occurred: object of type 'int' has no len()")])).
Proof.
  exact (proj1 (unclassified_exception_caught repr_stub
                  (ready_app (stub_model hero_text)) (stub_model hero_text)
                  (Parsed (JObj [(lit "prompt", JInt 5)]))
                  (TypeError_no_len (JInt 5))
                  (ready_app_ready _) eq_refl)).
Defined.

Lemma error_response_shape (msg : str) (code : Z) :
  code = 400 \/ code = 401 \/ code = 429 \/ code = 500 ->
  failure_shape (error_response msg code).
Proof. intros H. split; [exact H | now exists msg]. Qed.

Lemma classify_status (e : Exn) :
  snd (classify e) = 400 \/ snd (classify e) = 401
  \/ snd (classify e) = 429 \/ snd (classify e) = 500.
Proof.
  unfold classify.
  destruct (contains (lit "API key not valid") (error_message_of e)
            || contains (lit "PermissionDenied") (exn_type e)); [now auto|].
  destruct (contains (lit "Quota") (error_message_of e)
            || contains (lit "ResourceExhausted") (exn_type e)); [now auto|].
  destruct (contains (lit "Invalid") (error_message_of e)
            || contains (lit "BadRequest") (exn_type e)); now auto.
Qed.

Lemma classified_response_shape (e : Exn) : failure_shape (classified_response e).
Proof. apply error_response_shape, classify_status. Qed.

(** Every response the outer [try] returns has one of the two shapes. *)
Lemma request_try_shape (py_str_of : JValue -> str)
      (m : GenerativeModel) (body : Body) (r : HttpResponse) :
  outcome (request_try py_str_of m body) = inr r ->
  success_shape r \/ failure_shape r.
Proof.
  destruct body as [e|data]; [discriminate|].
  destruct data; try discriminate.
  unfold request_try. rewrite bind_ret. unfold py_get. rewrite bind_lift_ok.
  destruct (py_truthy _) eqn:Et; cbn [negb].
  2:{ intros H. injection H as <-. right. apply error_response_shape. now left. }
  destruct (py_len _) as [e|n] eqn:En; [discriminate|].
  rewrite bind_lift_ok.
  destruct (n >? max_prompt_len).
  { intros H. injection H as <-. right. apply error_response_shape. now left. }
  rewrite gemini_handled.
  destruct (generate_content m _ generation_config) as [e|response].
  { intros H. injection H as <-. right. apply classified_response_shape. }
  destruct (candidates response).
  { intros H. injection H as <-. right. apply error_response_shape. now left. }
  destruct (text response) as [e|t].
  { intros H. injection H as <-. right. apply classified_response_shape. }
  intros H. injection H as <-. left. split; [reflexivity|]. now eexists.
Qed.

(** C9.  Whatever the application state and the request body, the action
    route returns a response with a JSON object that has exactly one key:
    status 200 and the key [story], or a status among 400, 401, 429 and
    500 and the key [error]. *)
Theorem response_shape (py_str_of : JValue -> str) (app : App) (body : Body) :
  exists r,
    outcome (generate_story_api py_str_of app body) = inr r
    /\ ((status r = 200
         /\ exists story, payload r = Json [(lit "story", story)])
        \/ ((status r = 400 \/ status r = 401 \/ status r = 429 \/ status r = 500)
            /\ exists msg, payload r = Json [(lit "error", msg)])).
Proof.
  change (exists r, outcome (generate_story_api py_str_of app body) = inr r
                    /\ (success_shape r \/ failure_shape r)).
  unfold generate_story_api.
  destruct (negb (key_truthy (google_api_key app))).
  { eexists. split; [reflexivity|]. right. apply error_response_shape. auto. }
  destruct (model app) as [m|].
  2:{ eexists. split; [reflexivity|]. right. apply error_response_shape. auto. }
  rewrite outcome_try_except.
  destruct (outcome (request_try py_str_of m body)) as [e|r] eqn:E.
  - eexists. split; [reflexivity|]. right. apply error_response_shape. auto.
  - exists r. split; [reflexivity|]. exact (request_try_shape py_str_of m body r E).
Qed.

(** C10.  With a configured application, a body that is not a JSON object
    (the body does not parse, or it parses to [null], a boolean, a number,
    a string or an array) is answered by the outer [except] with status
    500, not by the prompt check with 400: [get_json] raises, or the parsed
    document has no [get] method and the lookup raises [AttributeError];
    the remote service is not called. *)
Theorem non_object_body_500 (py_str_of : JValue -> str)
        (app : App) (m : GenerativeModel) (body : Body) :
  ready app m -> is_json_object body = false ->
  exists e,
    request_failure body = Some e
    /\ (forall v, body = Parsed v -> e = AttributeError v (lit "get"))
    /\ outcome (generate_story_api py_str_of app body)
       = inr (mkHttp 500
                (Json [(lit "error",
                        lit "An internal server error occurred: " ++ exn_str e)]))
    /\ remote_calls (trace (generate_story_api py_str_of app body)) = [].
Proof.
  intros Hr Hb.
  assert (Hf : exists e, request_failure body = Some e
                         /\ (forall v, body = Parsed v
                                       -> e = AttributeError v (lit "get"))).
  { destruct body as [e|data].
    - exists e. split; [reflexivity | discriminate].
    - destruct data; try discriminate Hb;
        (eexists; split; [reflexivity | intros v H; now injection H as <-]). }
  destruct Hf as [e [Hf Hv]]. exists e.
  split; [exact Hf|]. split; [exact Hv|].
  rewrite (api_request_raised py_str_of app m body e Hr
             (request_try_not_object py_str_of m body e Hf)).
  split; reflexivity.
Qed.

Lemma non_object_body_500_witness :
  outcome (generate_story_api repr_stub (ready_app (stub_model hero_text))
             (Parsed (JArr [JStr once_upon_a_time])))
  = inr (mkHttp 500
           (Json [(lit "error",
                   lit "An internal server error occurred: 'list' object has no attribute 'get'")])).
Proof.
  destruct (non_object_body_500 repr_stub (ready_app (stub_model hero_text))
              (stub_model hero_text) (Parsed (JArr [JStr once_upon_a_time]))
              (ready_app_ready _) eq_refl)
    as [e [_ [Hv [Ho _]]]].
  rewrite Ho, (Hv _ eq_refl). reflexivity.
Defined.

(* ================================================================== *)
(** ** Start-up and the [__main__] block *)
(* ================================================================== *)

Lemma eqb_eq (a b : str) : PyStr.eqb a b = true <-> a = b.
Proof.
  unfold PyStr.eqb. destruct (list_eq_dec N.eq_dec a b); split;
    intros H; try reflexivity; try assumption; try discriminate.
  contradiction.
Qed.

(** X1.  Start-up with a key the SDK accepts and a model it creates: both
    globals are set, to the key of the environment and to that model, and
    the two records logged are at level INFO. *)
Theorem startup_success (env : Env) (key : str) (m : GenerativeModel) :
  getenv env (lit "GOOGLE_API_KEY") = Some key -> truthy key = true ->
  genai_configure env key = inr tt ->
  genai_GenerativeModel env MODEL_NAME = inr m ->
  startup env
  = ([key_configured_log; model_initialized_log], inr (mkApp (Some key) (Some m)))
  /\ ready (mkApp (Some key) (Some m)) m.
Proof.
  intros Hk Ht Hc Hm. split; [|split; [exact Ht | reflexivity]].
  unfold startup, configure_api_key, initialize_model.
  rewrite Hk, Ht, Hc. cbn [lift bind try_except log ret List.app key_truthy].
  rewrite Ht, Hm. reflexivity.
Qed.

Lemma startup_success_witness :
  startup env_ok
  = ([key_configured_log; model_initialized_log],
     inr (mkApp (Some test_key) (Some (stub_model hero_text)))).
Proof.
  exact (proj1 (startup_success env_ok test_key (stub_model hero_text)
                  eq_refl eq_refl eq_refl eq_refl)).
Defined.

(** X2.  Whatever the environment, start-up never leaves a model without a
    key: when the model global is set, the key global is the non-empty
    key of the environment, the SDK accepted it, and the model is the one
    the SDK created for [MODEL_NAME]. *)
Theorem startup_model_needs_key (env : Env) (app : App) (m : GenerativeModel) :
  outcome (startup env) = inr app -> model app = Some m ->
  exists key,
    getenv env (lit "GOOGLE_API_KEY") = Some key
    /\ google_api_key app = Some key /\ truthy key = true
    /\ genai_configure env key = inr tt
    /\ genai_GenerativeModel env MODEL_NAME = inr m.
Proof.
  rewrite startup_outcome. intros H. injection H as <-.
  unfold initialized_model, configured_key. cbn [model google_api_key].
  destruct (getenv env (lit "GOOGLE_API_KEY")) as [key|] eqn:Ek; [|discriminate].
  destruct (truthy key) eqn:Et.
  - destruct (genai_configure env key) as [e|[]] eqn:Ec; [discriminate|].
    cbn [key_truthy]. rewrite Et.
    destruct (genai_GenerativeModel env MODEL_NAME) as [e|m'] eqn:Em;
      [discriminate|].
    intros H. injection H as ->. exists key.
    repeat split; try reflexivity; assumption.
  - cbn [key_truthy]. rewrite Et. discriminate.
Qed.

Lemma startup_model_needs_key_witness :
  exists key,
    getenv env_ok (lit "GOOGLE_API_KEY") = Some key
    /\ google_api_key (mkApp (Some test_key) (Some (stub_model hero_text))) = Some key
    /\ truthy key = true
    /\ genai_configure env_ok key = inr tt
    /\ genai_GenerativeModel env_ok MODEL_NAME = inr (stub_model hero_text).
Proof.
  exact (startup_model_needs_key env_ok
           (mkApp (Some test_key) (Some (stub_model hero_text)))
           (stub_model hero_text) eq_refl eq_refl).
Defined.

(** X3.  Start-up without a key (the variable is unset or empty): one ERROR
    record and one WARNING record are logged, the SDK result plays no
    part, no model is created, and every later call of the action route
    is answered 500 "Google API key not configured on the server."
    without a log record. *)
Theorem startup_without_key (py_str_of : JValue -> str) (env : Env) :
  key_truthy (getenv env (lit "GOOGLE_API_KEY")) = false ->
  startup env
  = ([key_not_set_log; model_skipped_log],
     inr (mkApp (getenv env (lit "GOOGLE_API_KEY")) None))
  /\ forall body,
       generate_story_api py_str_of
         (mkApp (getenv env (lit "GOOGLE_API_KEY")) None) body
       = ([], inr key_missing_response).
Proof.
  intros Hk. split.
  - unfold startup, configure_api_key, initialize_model.
    destruct (getenv env (lit "GOOGLE_API_KEY")) as [key|].
    + cbn [key_truthy] in Hk. rewrite Hk.
      cbn [lift bind try_except log ret List.app key_truthy]. rewrite Hk.
      reflexivity.
    + reflexivity.
  - intros body. unfold generate_story_api. cbn [google_api_key].
    rewrite Hk. reflexivity.
Qed.

Lemma startup_without_key_witness :
  startup env_unset = ([key_not_set_log; model_skipped_log], inr (mkApp None None))
  /\ generate_story_api repr_stub (mkApp None None) (prompt_body once_upon_a_time)
     = ([], inr key_missing_response).
Proof.
  destruct (startup_without_key repr_stub env_unset eq_refl) as [H1 H2].
  split; [exact H1 | exact (H2 (prompt_body once_upon_a_time))].
Defined.

(** X4.  Start-up with a key that [genai.configure] refuses: the failure is
    logged, the key global is reset to [None] although the environment
    holds a key, the model is not created, and the action route answers
    as if no key had been given. *)
Theorem startup_configure_fails (py_str_of : JValue -> str)
        (env : Env) (key : str) (e : Exn) :
  getenv env (lit "GOOGLE_API_KEY") = Some key -> truthy key = true ->
  genai_configure env key = inl e ->
  startup env = ([configure_error_log e; model_skipped_log], inr (mkApp None None))
  /\ forall body,
       generate_story_api py_str_of (mkApp None None) body
       = ([], inr key_missing_response).
Proof.
  intros Hk Ht Hc. split; [|reflexivity].
  unfold startup, configure_api_key, initialize_model.
  rewrite Hk, Ht, Hc. reflexivity.
Qed.

Lemma startup_configure_fails_witness :
  startup env_configure_fails
  = ([configure_error_log sdk_exn; model_skipped_log], inr (mkApp None None)).
Proof.
  exact (proj1 (startup_configure_fails repr_stub env_configure_fails test_key
                  sdk_exn eq_refl eq_refl eq_refl)).
Defined.

(** X5.  Start-up with an accepted key and a model the SDK fails to create:
    the key global keeps the key, the model global is [None], the failure
    is logged at level ERROR, and every later call of the action route is
    answered 500 with the message that names the model, never with the
    missing-key message. *)
Theorem startup_model_fails (py_str_of : JValue -> str)
        (env : Env) (key : str) (e : Exn) :
  getenv env (lit "GOOGLE_API_KEY") = Some key -> truthy key = true ->
  genai_configure env key = inr tt ->
  genai_GenerativeModel env MODEL_NAME = inl e ->
  startup env
  = ([key_configured_log; model_error_log e], inr (mkApp (Some key) None))
  /\ forall body,
       generate_story_api py_str_of (mkApp (Some key) None) body
       = ([], inr model_missing_response).
Proof.
  intros Hk Ht Hc Hm. split.
  - unfold startup, configure_api_key, initialize_model.
    rewrite Hk, Ht, Hc. cbn [lift bind try_except log ret List.app key_truthy].
    rewrite Ht, Hm. reflexivity.
  - intros body. unfold generate_story_api. cbn [google_api_key key_truthy model].
    rewrite Ht. reflexivity.
Qed.

Lemma startup_model_fails_witness :
  startup env_model_fails
  = ([key_configured_log; model_error_log sdk_exn], inr (mkApp (Some test_key) None))
  /\ generate_story_api repr_stub (mkApp (Some test_key) None)
       (prompt_body once_upon_a_time)
     = ([], inr model_missing_response).
Proof.
  destruct (startup_model_fails repr_stub env_model_fails test_key sdk_exn
              eq_refl eq_refl eq_refl eq_refl) as [H1 H2].
  split; [exact H1 | exact (H2 (prompt_body once_upon_a_time))].
Defined.

Lemma ascii_lower_eq (c target : char) :
  (97 <= target <= 122)%N ->
  ascii_lower c = target <-> (c = target \/ (c + 32)%N = target).
Proof.
  intros Ht. unfold ascii_lower.
  destruct (N.leb_spec 65 c); destruct (N.leb_spec c 90); cbn [andb]; lia.
Qed.

Lemma map_ascii_lower_true (v : str) :
  map ascii_lower v = lit "true" <-> spells_true v.
Proof.
  unfold spells_true. split.
  - destruct v as [|t [|r [|u [|e [|x v]]]]]; try discriminate.
    cbn [map]. intros H. injection H as Ht Hr Hu He.
    apply ascii_lower_eq in Ht, Hr, Hu, He; try lia.
    exists t, r, u, e. split; [reflexivity|]. lia.
  - intros [t [r [u [e [-> [Ht [Hr [Hu He]]]]]]]].
    cbn [map].
    assert (ascii_lower t = 116%N) as -> by (apply ascii_lower_eq; lia).
    assert (ascii_lower r = 114%N) as -> by (apply ascii_lower_eq; lia).
    assert (ascii_lower u = 117%N) as -> by (apply ascii_lower_eq; lia).
    assert (ascii_lower e = 101%N) as -> by (apply ascii_lower_eq; lia).
    reflexivity.
Qed.

(** X6.  The [debug] argument of [app.run]: off when [FLASK_DEBUG] is unset,
    and for an ASCII value on exactly when the value spells "true" in
    upper or lower case letters (so "1", "yes" or "on" leave it off). *)
Theorem debug_flag_spelling (unicode_lower : str -> str) (env : Env) :
  (getenv env (lit "FLASK_DEBUG") = None -> debug_flag unicode_lower env = false)
  /\ (forall v,
         getenv env (lit "FLASK_DEBUG") = Some v ->
         forallb is_ascii v = true ->
         (debug_flag unicode_lower env = true <-> spells_true v)).
Proof.
  unfold debug_flag, getenv_default. split.
  - intros ->. reflexivity.
  - intros v -> Ha. unfold lower. rewrite Ha, eqb_eq.
    apply map_ascii_lower_true.
Qed.

Lemma debug_flag_spelling_witness :
  debug_flag unicode_lower_stub env_unset = false
  /\ debug_flag unicode_lower_stub env_ok = true.
Proof.
  destruct (debug_flag_spelling unicode_lower_stub env_unset) as [H1 _].
  destruct (debug_flag_spelling unicode_lower_stub env_ok) as [_ H2].
  split; [exact (H1 eq_refl)|].
  apply (H2 (lit "TRUE") eq_refl eq_refl).
  exists 84%N, 82%N, 85%N, 69%N.
  repeat split; try reflexivity; right; reflexivity.
Defined.

(** X7.  [python app.py] always reaches [app.run], on host 0.0.0.0 and port
    5000; before that the block logs no warning after a successful
    start-up, the model warning alone when only the model is missing, and
    both the key warning and the model warning when start-up ended
    without a key. *)
Theorem program_warnings (unicode_lower : str -> str) (env : Env) :
  exists app,
    outcome (startup env) = inr app
    /\ outcome (program unicode_lower env)
       = inr (app, mkRunConfig (lit "0.0.0.0") 5000 (debug_flag unicode_lower env))
    /\ trace (main unicode_lower env app)
       = (if key_truthy (google_api_key app) then
            match model app with
            | Some _ => []
            | None => [Log WARNING model_warning None]
            end
          else [Log WARNING key_warning None; Log WARNING model_warning None]).
Proof.
  exists (mkApp (configured_key env)
                (initialized_model env (configured_key env))).
  split; [apply startup_outcome|]. split.
  - unfold program. rewrite outcome_bind, startup_outcome.
    rewrite outcome_bind. unfold main.
    rewrite outcome_bind.
    cbn [google_api_key model].
    destruct (negb (key_truthy (configured_key env))); cbn [outcome snd log ret];
      rewrite outcome_bind;
      destruct (initialized_model env (configured_key env)); reflexivity.
  - unfold main, initialized_model. cbn [google_api_key model].
    destruct (key_truthy (configured_key env)); cbn [negb].
    + destruct (genai_GenerativeModel env MODEL_NAME); reflexivity.
    + reflexivity.
Qed.

(* ================================================================== *)
(** ** The action route as a whole *)
(* ================================================================== *)

(** Every way the action route can end: to prove a property of its result
    it is enough to prove it of the seven results below. *)
Lemma api_cases (py_str_of : JValue -> str) (app : App) (body : Body)
      (P : M HttpResponse -> Prop) :
  (forall msg, unavailable app -> msg <> [] ->
     P ([], inr (error_response msg 500))) ->
  (forall m e, ready app m -> request_try py_str_of m body = ([], inl e) ->
     P ([Log ERROR (lit "Error in /generate_story endpoint: " ++ exn_str e) (Some e)],
        inr (error_response (internal_error_prefix ++ exn_str e) 500))) ->
  (forall m v, ready app m -> user_prompt_of body = Some v -> py_truthy v = false ->
     P ([], inr (error_response (lit "Prompt is missing") 400))) ->
  (forall m v n, ready app m -> user_prompt_of body = Some v ->
     py_truthy v = true -> py_len v = inr n -> n > max_prompt_len ->
     P ([], inr (error_response
                   (lit "Prompt is too long (max 2000 characters for this demo)")
                   400))) ->
  (forall m v e, ready app m -> user_prompt_of body = Some v ->
     passes_validation v ->
     (generate_content m (full_prompt (py_format py_str_of v)) generation_config
      = inl e
      \/ exists response,
           generate_content m (full_prompt (py_format py_str_of v)) generation_config
           = inr response
           /\ candidates response <> [] /\ text response = inl e) ->
     P ([RemoteCall (full_prompt (py_format py_str_of v)) generation_config;
         gemini_error_log e],
        inr (classified_response e))) ->
  (forall m v response, ready app m -> user_prompt_of body = Some v ->
     passes_validation v ->
     generate_content m (full_prompt (py_format py_str_of v)) generation_config
     = inr response ->
     candidates response = [] ->
     P ([RemoteCall (full_prompt (py_format py_str_of v)) generation_config;
         Log WARNING (lit "Gemini response blocked or empty. Prompt: '"
                      ++ py_format py_str_of v ++ lit "'. Reason: "
                      ++ block_reason_msg response) None],
        inr (error_response (block_reason_msg response) 400))) ->
  (forall m v response t, ready app m -> user_prompt_of body = Some v ->
     passes_validation v ->
     generate_content m (full_prompt (py_format py_str_of v)) generation_config
     = inr response ->
     candidates response <> [] -> text response = inr t ->
     P ([RemoteCall (full_prompt (py_format py_str_of v)) generation_config],
        inr (mkHttp 200
               (jsonify [(lit "story",
                          if negb (truthy (strip t)) then fallback_story
                          else strip t)])))) ->
  P (generate_story_api py_str_of app body).
Proof.
  intros Hun Hexc Hmiss Hlong Hfail Hblock Hstory.
  destruct (key_truthy (google_api_key app)) eqn:Ek.
  2:{ destruct (api_unavailable py_str_of app body (or_introl Ek))
        as [msg [Hne ->]].
      apply Hun; [now left | exact Hne]. }
  destruct (model app) as [m|] eqn:Em.
  2:{ destruct (api_unavailable py_str_of app body (or_intror Em))
        as [msg [Hne ->]].
      apply Hun; [now right | exact Hne]. }
  assert (Hr : ready app m) by (split; assumption).
  destruct (request_failure body) as [e|] eqn:Ef.
  { pose proof (request_try_not_object py_str_of m body e Ef) as Ht.
    rewrite (api_request_raised py_str_of app m body e Hr Ht).
    now apply (Hexc m). }
  destruct body as [e|data]; [discriminate|].
  destruct data; try discriminate.
  remember (Parsed (JObj fields)) as body eqn:Eb.
  assert (Hex : exists v, user_prompt_of body = Some v)
    by (subst body; now eexists).
  destruct Hex as [v Ev].
  destruct (py_truthy v) eqn:Et.
  2:{ rewrite (api_prompt_missing py_str_of app m body v Hr Ev Et).
      now apply (Hmiss m v). }
  destruct (py_len v) as [e|n] eqn:En.
  { assert (Ht : request_try py_str_of m body = ([], inl e)).
    { subst body. injection Ev as Ev.
      unfold request_try. rewrite bind_ret. unfold py_get.
      rewrite bind_lift_ok, Ev, Et. cbn [negb]. rewrite En. reflexivity. }
    rewrite (api_request_raised py_str_of app m body e Hr Ht).
    now apply (Hexc m). }
  destruct (Z_gt_le_dec n max_prompt_len) as [Hgt|Hle].
  { rewrite (api_prompt_too_long py_str_of app m body v n Hr Ev Et En Hgt).
    now apply (Hlong m v n). }
  assert (Hv : passes_validation v) by (split; [exact Et | now exists n]).
  destruct (generate_content m (full_prompt (py_format py_str_of v))
              generation_config) as [e|response] eqn:Eg.
  { rewrite (api_remote_raised py_str_of app m body v e Hr Ev Hv Eg).
    apply (Hfail m v e Hr Ev Hv). now left. }
  destruct (candidates response) as [|c cs] eqn:Ec.
  { rewrite (api_no_candidates py_str_of app m body v response Hr Ev Hv Eg Ec).
    now apply (Hblock m v response). }
  assert (Hc : candidates response <> []) by (rewrite Ec; discriminate).
  destruct (text response) as [e|t] eqn:Etx.
  - rewrite (api_text_raised py_str_of app m body v response e Hr Ev Hv Eg Hc Etx).
    apply (Hfail m v e Hr Ev Hv). right. now exists response.
  - rewrite (api_story py_str_of app m body v response t Hr Ev Hv Eg Hc Etx).
    now apply (Hstory m v response t).
Qed.

Ltac answered H :=
  unfold outcome in H; cbn [snd] in H; injection H as <-.

Lemma ready_not_unavailable (app : App) (m : GenerativeModel) :
  ready app m -> unavailable app -> False.
Proof.
  intros [Hk Hm] [H | H]; [rewrite Hk in H | rewrite Hm in H]; discriminate.
Qed.

Lemma classified_status (e : Exn) :
  status (classified_response e) = 400 \/ status (classified_response e) = 401
  \/ status (classified_response e) = 429 \/ status (classified_response e) = 500.
Proof. exact (classify_status e). Qed.

Lemma story_value_trimmed (t : str) :
  (if negb (truthy (strip t)) then fallback_story else strip t) <> []
  /\ trimmed (if negb (truthy (strip t)) then fallback_story else strip t) = true.
Proof.
  destruct (strip_spec t) as [_ Htr].
  destruct (strip t) as [|c u]; cbn [truthy negb].
  - split; [discriminate | vm_compute; reflexivity].
  - split; [discriminate | exact Htr].
Qed.

(** X8.  The action route never retries and never calls the service for a
    prompt it refused: in every run its trace holds no remote call, or
    exactly one, made for a prompt that passed both checks, with the
    templated prompt and the fixed configuration. *)
Theorem at_most_one_remote_call (py_str_of : JValue -> str)
        (app : App) (body : Body) :
  remote_calls (trace (generate_story_api py_str_of app body)) = []
  \/ exists v,
       user_prompt_of body = Some v /\ passes_validation v
       /\ remote_calls (trace (generate_story_api py_str_of app body))
          = [RemoteCall (full_prompt (py_format py_str_of v)) generation_config].
Proof.
  apply (api_cases py_str_of app body
           (fun res =>
              remote_calls (trace res) = []
              \/ exists v,
                   user_prompt_of body = Some v /\ passes_validation v
                   /\ remote_calls (trace res)
                      = [RemoteCall (full_prompt (py_format py_str_of v))
                                    generation_config]));
    intros; try (left; reflexivity);
    right; exists v;
    (split; [assumption | split; [assumption | reflexivity]]).
Qed.

(** X9.  A 200 answer never carries a blank story: the [story] value is
    non-empty and has no whitespace at either end. *)
Theorem story_never_blank (py_str_of : JValue -> str)
        (app : App) (body : Body) (r : HttpResponse) :
  outcome (generate_story_api py_str_of app body) = inr r ->
  status r = 200 ->
  exists story,
    payload r = Json [(lit "story", story)]
    /\ story <> [] /\ trimmed story = true.
Proof.
  revert r.
  apply (api_cases py_str_of app body
           (fun res => forall r, outcome res = inr r -> status r = 200 ->
              exists story,
                payload r = Json [(lit "story", story)]
                /\ story <> [] /\ trimmed story = true));
    intros until r; intros Ho Hs; answered Ho; try discriminate Hs.
  - pose proof (classified_status e) as Hc. rewrite Hs in Hc.
    destruct Hc as [Hc | [Hc | [Hc | Hc]]]; discriminate Hc.
  - eexists. split; [reflexivity|]. apply story_value_trimmed.
Qed.

Lemma story_never_blank_witness :
  exists story,
    payload (mkHttp 200 (Json [(lit "story", lit "A hero arose.")]))
    = Json [(lit "story", story)]
    /\ story <> [] /\ trimmed story = true.
Proof.
  exact (story_never_blank repr_stub (ready_app (stub_model hero_text))
           (prompt_body once_upon_a_time)
           (mkHttp 200 (Json [(lit "story", lit "A hero arose.")]))
           eq_refl eq_refl).
Defined.

(** X10.  An answer with a status other than 200 always carries a non-empty
    [error] message. *)
Theorem error_never_blank (py_str_of : JValue -> str)
        (app : App) (body : Body) (r : HttpResponse) :
  outcome (generate_story_api py_str_of app body) = inr r ->
  status r <> 200 ->
  exists msg, payload r = Json [(lit "error", msg)] /\ msg <> [].
Proof.
  revert r.
  apply (api_cases py_str_of app body
           (fun res => forall r, outcome res = inr r -> status r <> 200 ->
              exists msg, payload r = Json [(lit "error", msg)] /\ msg <> []));
    intros until r; intros Ho Hs; answered Ho;
    try (eexists; split; [reflexivity|]; try assumption; discriminate).
  - eexists. split; [reflexivity|]. apply block_reason_msg_nonempty.
  - now elim Hs.
Qed.

Lemma error_never_blank_witness :
  exists msg,
    payload (mkHttp 400 (Json [(lit "error", lit "Prompt is missing")]))
    = Json [(lit "error", msg)]
    /\ msg <> [].
Proof.
  exact (error_never_blank repr_stub (ready_app (stub_model hero_text))
           (Parsed (JObj []))
           (mkHttp 400 (Json [(lit "error", lit "Prompt is missing")]))
           eq_refl ltac:(discriminate)).
Defined.

(** X11.  The statuses 200, 401 and 429 are only ever answered after the remote
    service was called: without a call in the trace the status is 400 or
    500. *)
Theorem remote_statuses_need_call (py_str_of : JValue -> str)
        (app : App) (body : Body) (r : HttpResponse) :
  outcome (generate_story_api py_str_of app body) = inr r ->
  status r = 200 \/ status r = 401 \/ status r = 429 ->
  exists p,
    remote_calls (trace (generate_story_api py_str_of app body))
    = [RemoteCall p generation_config].
Proof.
  revert r.
  apply (api_cases py_str_of app body
           (fun res => forall r, outcome res = inr r ->
              status r = 200 \/ status r = 401 \/ status r = 429 ->
              exists p, remote_calls (trace res) = [RemoteCall p generation_config]));
    intros until r; intros Ho Hs; answered Ho;
    try (now eexists);
    cbn [status error_response] in Hs;
    destruct Hs as [Hs | [Hs | Hs]]; discriminate Hs.
Qed.

Lemma remote_statuses_need_call_witness :
  exists p,
    remote_calls (trace (generate_story_api repr_stub
                           (ready_app (failing_model quota_exn))
                           (prompt_body once_upon_a_time)))
    = [RemoteCall p generation_config].
Proof.
  exact (remote_statuses_need_call repr_stub (ready_app (failing_model quota_exn))
           (prompt_body once_upon_a_time)
           (error_response (service_error_prefix ++ quota_exceeded_msg) 429)
           eq_refl (or_intror (or_intror eq_refl))).
Defined.

(** X12.  Under a configured application, every answer with status 401,
    429 or 500 comes from an [except] block, and the trace ends with the
    ERROR record of the very exception that was caught, with its text and
    its traceback: either the exception [e] that lines 57-63 raised, logged
    as "Error in /generate_story endpoint: " followed by [str(e)] and
    answered 500 with that text, or the exception [e] that the remote call
    or the [text] accessor raised, logged after the remote call as "Error
    during Google Gemini API call: " followed by [str(e)]. *)
Theorem caught_exceptions_logged (py_str_of : JValue -> str)
        (app : App) (m : GenerativeModel) (body : Body) (r : HttpResponse) :
  ready app m ->
  outcome (generate_story_api py_str_of app body) = inr r ->
  status r = 401 \/ status r = 429 \/ status r = 500 ->
  exists e,
    (outcome (request_try py_str_of m body) = inl e
     /\ trace (generate_story_api py_str_of app body)
        = [Log ERROR (lit "Error in /generate_story endpoint: " ++ exn_str e)
               (Some e)]
     /\ r = mkHttp 500
              (Json [(lit "error",
                      lit "An internal server error occurred: " ++ exn_str e)]))
    \/ (exists v,
          user_prompt_of body = Some v /\ passes_validation v
          /\ (generate_content m (full_prompt (py_format py_str_of v))
                generation_config = inl e
              \/ exists response,
                   generate_content m (full_prompt (py_format py_str_of v))
                     generation_config = inr response
                   /\ candidates response <> [] /\ text response = inl e)
          /\ trace (generate_story_api py_str_of app body)
             = [RemoteCall (full_prompt (py_format py_str_of v)) generation_config;
                Log ERROR (lit "Error during Google Gemini API call: " ++ exn_str e)
                    (Some e)]).
Proof.
  intros Hr. revert r.
  apply (api_cases py_str_of app body
           (fun res => forall r, outcome res = inr r ->
              status r = 401 \/ status r = 429 \/ status r = 500 ->
              exists e,
                (outcome (request_try py_str_of m body) = inl e
                 /\ trace res
                    = [Log ERROR (lit "Error in /generate_story endpoint: "
                                  ++ exn_str e) (Some e)]
                 /\ r = mkHttp 500
                          (Json [(lit "error",
                                  lit "An internal server error occurred: "
                                  ++ exn_str e)]))
                \/ (exists v,
                      user_prompt_of body = Some v /\ passes_validation v
                      /\ (generate_content m (full_prompt (py_format py_str_of v))
                            generation_config = inl e
                          \/ exists response,
                               generate_content m
                                 (full_prompt (py_format py_str_of v))
                                 generation_config = inr response
                               /\ candidates response <> []
                               /\ text response = inl e)
                      /\ trace res
                         = [RemoteCall (full_prompt (py_format py_str_of v))
                                       generation_config;
                            Log ERROR (lit "Error during Google Gemini API call: "
                                       ++ exn_str e) (Some e)])));
    intros until r; intros Ho Hs; answered Ho.
  - elim (ready_not_unavailable app m Hr H).
  - exists e. left.
    assert (m0 = m) as -> by (destruct H as [_ H], Hr as [_ Hr']; congruence).
    rewrite H0. repeat split; reflexivity.
  - destruct Hs as [Hs | [Hs | Hs]]; discriminate Hs.
  - destruct Hs as [Hs | [Hs | Hs]]; discriminate Hs.
  - exists e. right. exists v.
    assert (m0 = m) as -> by (destruct H as [_ H], Hr as [_ Hr']; congruence).
    split; [assumption|]. split; [assumption|]. split; [assumption|reflexivity].
  - destruct Hs as [Hs | [Hs | Hs]]; discriminate Hs.
  - destruct Hs as [Hs | [Hs | Hs]]; discriminate Hs.
Qed.

Lemma caught_exceptions_logged_witness :
  exists e,
    (outcome (request_try repr_stub (failing_model quota_exn)
                (prompt_body once_upon_a_time)) = inl e
     /\ trace (generate_story_api repr_stub (ready_app (failing_model quota_exn))
                 (prompt_body once_upon_a_time))
        = [Log ERROR (lit "Error in /generate_story endpoint: " ++ exn_str e)
               (Some e)]
     /\ error_response (service_error_prefix ++ quota_exceeded_msg) 429
        = mkHttp 500
            (Json [(lit "error",
                    lit "An internal server error occurred: " ++ exn_str e)]))
    \/ (exists v,
          user_prompt_of (prompt_body once_upon_a_time) = Some v
          /\ passes_validation v
          /\ (generate_content (failing_model quota_exn)
                (full_prompt (py_format repr_stub v)) generation_config = inl e
              \/ exists response,
                   generate_content (failing_model quota_exn)
                     (full_prompt (py_format repr_stub v)) generation_config
                   = inr response
                   /\ candidates response <> [] /\ text response = inl e)
          /\ trace (generate_story_api repr_stub
                      (ready_app (failing_model quota_exn))
                      (prompt_body once_upon_a_time))
             = [RemoteCall (full_prompt (py_format repr_stub v)) generation_config;
                Log ERROR (lit "Error during Google Gemini API call: " ++ exn_str e)
                    (Some e)]).
Proof.
  exact (caught_exceptions_logged repr_stub (ready_app (failing_model quota_exn))
           (failing_model quota_exn) (prompt_body once_upon_a_time)
           (error_response (service_error_prefix ++ quota_exceeded_msg) 429)
           (ready_app_ready _) eq_refl (or_intror (or_introl eq_refl))).
Defined.

(** X13.  A prompt that is not a string.  A truthy number or [true] has no
    length: the length check raises and the answer is 500 from the outer
    [except], without a remote call.  A falsy value (zero, [false], an
    empty array or object) is answered 400 "Prompt is missing" like an
    absent prompt. *)
Theorem scalar_prompt (py_str_of : JValue -> str)
        (app : App) (m : GenerativeModel) (body : Body) (v : JValue) :
  ready app m -> user_prompt_of body = Some v ->
  (v = JBool true \/ (exists z, z <> 0 /\ v = JInt z) \/ v = JFloat true ->
   outcome (generate_story_api py_str_of app body)
   = inr (mkHttp 500
            (Json [(lit "error",
                    lit "An internal server error occurred: object of type '"
                    ++ type_name v ++ lit "' has no len()")]))
   /\ remote_calls (trace (generate_story_api py_str_of app body)) = [])
  /\ (v = JBool false \/ v = JInt 0 \/ v = JFloat false \/ v = JArr [] \/ v = JObj [] ->
      generate_story_api py_str_of app body
      = ([], inr (mkHttp 400 (Json [(lit "error", lit "Prompt is missing")])))).
Proof.
  intros Hr Hp. split.
  - intros Hv.
    assert (Ht : py_truthy v = true /\ py_len v = inl (TypeError_no_len v)).
    { destruct Hv as [-> | [[z [Hz ->]] | ->]]; split; try reflexivity.
      cbn [py_truthy]. apply Z.eqb_neq in Hz. now rewrite Hz. }
    destruct Ht as [Ht Hl].
    assert (Hx : request_try py_str_of m body = ([], inl (TypeError_no_len v))).
    { destruct body as [e|data]; [discriminate|].
      destruct data; try discriminate. injection Hp as Hp.
      unfold request_try. rewrite bind_ret. unfold py_get.
      rewrite bind_lift_ok, Hp, Ht. cbn [negb]. rewrite Hl. reflexivity. }
    rewrite (api_request_raised py_str_of app m body _ Hr Hx).
    split; [|reflexivity].
    unfold outcome, error_response, jsonify, internal_error_prefix.
    cbn [snd exn_str TypeError_no_len].
    change (lit "An internal server error occurred: object of type '")
      with (lit "An internal server error occurred: " ++ lit "object of type '").
    now rewrite <- !app_assoc.
  - intros Hv.
    apply (api_prompt_missing py_str_of app m body v Hr Hp).
    destruct Hv as [-> | [-> | [-> | [-> | ->]]]]; reflexivity.
Qed.

Lemma scalar_prompt_witness :
  outcome (generate_story_api repr_stub (ready_app (stub_model hero_text))
             (Parsed (JObj [(lit "prompt", JInt 7)])))
  = inr (mkHttp 500
           (Json [(lit "error",
                   lit "An internal server error occurred: object of type 'int' has no len()")])).
Proof.
  destruct (scalar_prompt repr_stub (ready_app (stub_model hero_text))
              (stub_model hero_text) (Parsed (JObj [(lit "prompt", JInt 7)]))
              (JInt 7) (ready_app_ready _) eq_refl) as [H _].
  refine (proj1 (H (or_intror (or_introl (ex_intro _ 7 (conj _ eq_refl)))))).
  discriminate.
Defined.

(** X14.  A prompt that is a JSON array: the limit of 2000 counts the items of
    the array, not the characters of its text.  A non-empty array of at
    most 2000 items passes the checks and its [str()] rendering is sent
    to the service inside the template, however long its items are; an
    array of more than 2000 items is refused with 400. *)
Theorem array_prompt_length (py_str_of : JValue -> str)
        (app : App) (m : GenerativeModel) (body : Body) (items : list JValue) :
  ready app m -> user_prompt_of body = Some (JArr items) -> items <> [] ->
  (Z.of_nat (length items) <= 2000 ->
   remote_calls (trace (generate_story_api py_str_of app body))
   = [RemoteCall (full_prompt (py_str_of (JArr items))) generation_config])
  /\ (Z.of_nat (length items) > 2000 ->
      generate_story_api py_str_of app body
      = ([], inr (mkHttp 400
                    (Json [(lit "error",
                            lit "Prompt is too long (max 2000 characters for this demo)")])))).
Proof.
  intros Hr Hp Hne.
  assert (Ht : py_truthy (JArr items) = true)
    by (destruct items; [now elim Hne | reflexivity]).
  split; intros Hl.
  - apply (api_accepted_calls py_str_of app m body (JArr items) Hr Hp).
    split; [exact Ht|]. now exists (Z.of_nat (length items)).
  - exact (api_prompt_too_long py_str_of app m body (JArr items) _ Hr Hp Ht
             eq_refl Hl).
Qed.

Lemma array_prompt_length_witness :
  remote_calls (trace (generate_story_api repr_stub
                         (ready_app (stub_model hero_text))
                         (Parsed (JObj [(lit "prompt", JArr [JStr long_prompt])]))))
  = [RemoteCall (full_prompt (repr_stub (JArr [JStr long_prompt]))) generation_config].
Proof.
  destruct (array_prompt_length repr_stub (ready_app (stub_model hero_text))
              (stub_model hero_text)
              (Parsed (JObj [(lit "prompt", JArr [JStr long_prompt])]))
              [JStr long_prompt] (ready_app_ready _) eq_refl
              ltac:(discriminate)) as [H _].
  apply H. simpl. lia.
Defined.

(** X15.  A response that holds a candidate whose [text] accessor raises (a
    candidate without text) is not answered as blocked content: the
    failure goes through the rules of the inner [except], and with none of
    the three indicators the answer is 500 with the failure's message
    after the service prefix. *)
Theorem text_failure_classified (py_str_of : JValue -> str)
        (app : App) (m : GenerativeModel) (body : Body) (v : JValue)
        (response : GenerateContentResponse) (e : Exn) :
  ready app m -> user_prompt_of body = Some v -> passes_validation v ->
  generate_content m (full_prompt (py_format py_str_of v)) generation_config
  = inr response ->
  candidates response <> [] ->
  text response = inl e ->
  ~ auth_indicator e -> ~ quota_indicator e -> ~ invalid_indicator e ->
  generate_story_api py_str_of app body
  = ([RemoteCall (full_prompt (py_format py_str_of v)) generation_config;
      Log ERROR (lit "Error during Google Gemini API call: " ++ exn_str e) (Some e)],
     inr (mkHttp 500
            (Json [(lit "error",
                    lit "An error occurred with the Google AI service: "
                    ++ error_message_of e)]))).
Proof.
  intros Hr Hp Hv He Hc Ht Ha Hq Hi.
  rewrite (api_text_raised py_str_of app m body v response e Hr Hp Hv He Hc Ht).
  unfold classified_response.
  destruct (classify_rules e) as [_ [_ [_ R]]]. rewrite (R Ha Hq Hi).
  reflexivity.
Qed.

Lemma blocked_candidate_no_indicator :
  ~ auth_indicator blocked_candidate_exn
  /\ ~ quota_indicator blocked_candidate_exn
  /\ ~ invalid_indicator blocked_candidate_exn.
Proof.
  rewrite auth_indicator_iff, quota_indicator_iff, invalid_indicator_iff.
  vm_compute. repeat split; discriminate.
Defined.

Lemma text_failure_classified_witness :
  outcome (generate_story_api repr_stub
             (ready_app (text_fails_model blocked_candidate_exn))
             (prompt_body once_upon_a_time))
  = inr (mkHttp 500
           (Json [(lit "error",
                   lit "An error occurred with the Google AI service: "
                   ++ error_message_of blocked_candidate_exn)])).
Proof.
  rewrite (text_failure_classified repr_stub
             (ready_app (text_fails_model blocked_candidate_exn))
             (text_fails_model blocked_candidate_exn)
             (prompt_body once_upon_a_time) (JStr once_upon_a_time) _
             blocked_candidate_exn
             (ready_app_ready _) (prompt_body_prompt _)
             (accepted_passes _ once_upon_a_time_accepted) eq_refl
             ltac:(discriminate) eq_refl
             (proj1 blocked_candidate_no_indicator)
             (proj1 (proj2 blocked_candidate_no_indicator))
             (proj2 (proj2 blocked_candidate_no_indicator))).
  reflexivity.
Defined.

Lemma full_prompt_len (s : str) : len (full_prompt s) = len s + 186.
Proof.
  rewrite full_prompt_template. unfold len.
  rewrite !length_app, !Nat2Z.inj_add.
  change (Z.of_nat (length template_before)) with 55.
  change (Z.of_nat (length template_after)) with 131.
  lia.
Qed.

(** X16.  The size of what is sent: for a string prompt that passed the checks,
    the prompt of every remote call in the trace is the user's text plus
    the 186 code points of the template, so between 187 and 2186 code
    points. *)
Theorem prompt_length_sent (py_str_of : JValue -> str)
        (app : App) (m : GenerativeModel) (body : Body) (s p : str)
        (config : GenerationConfig) :
  ready app m -> user_prompt_of body = Some (JStr s) -> accepted s ->
  In (RemoteCall p config) (trace (generate_story_api py_str_of app body)) ->
  len p = len s + 186 /\ 187 <= len p <= 2186.
Proof.
  intros Hr Hp Hs Hin.
  assert (Hc : In (RemoteCall p config)
                  (remote_calls (trace (generate_story_api py_str_of app body)))).
  { unfold remote_calls. apply filter_In. split; [exact Hin | reflexivity]. }
  rewrite (api_accepted_calls py_str_of app m body (JStr s) Hr Hp
             (accepted_passes s Hs)) in Hc.
  destruct Hc as [Hc | []]. injection Hc as <- _.
  cbn [py_format]. rewrite full_prompt_len.
  unfold accepted, max_prompt_len in Hs. lia.
Qed.

Lemma prompt_length_sent_witness :
  len (full_prompt once_upon_a_time) = len once_upon_a_time + 186
  /\ 187 <= len (full_prompt once_upon_a_time) <= 2186.
Proof.
  exact (prompt_length_sent repr_stub (ready_app (stub_model hero_text))
           (stub_model hero_text) (prompt_body once_upon_a_time)
           once_upon_a_time (full_prompt once_upon_a_time) generation_config
           (ready_app_ready _) (prompt_body_prompt _) once_upon_a_time_accepted
           (or_introl eq_refl)).
Defined.

Lemma classify_fixed_messages (e : Exn) :
  (snd (classify e) = 401 -> fst (classify e) = auth_failed_msg)
  /\ (snd (classify e) = 429 -> fst (classify e) = quota_exceeded_msg).
Proof.
  unfold classify.
  destruct (contains (lit "API key not valid") (error_message_of e)
            || contains (lit "PermissionDenied") (exn_type e));
    [split; [reflexivity | discriminate]|].
  destruct (contains (lit "Quota") (error_message_of e)
            || contains (lit "ResourceExhausted") (exn_type e));
    [split; [discriminate | reflexivity]|].
  destruct (contains (lit "Invalid") (error_message_of e)
            || contains (lit "BadRequest") (exn_type e));
    split; discriminate.
Qed.

(** X17.  The answers 401 and 429 never repeat what the service said: whatever
    the request and the failure, a 401 answer carries the one fixed
    authentication message and a 429 answer the one fixed quota
    message. *)
Theorem fixed_answers_401_429 (py_str_of : JValue -> str)
        (app : App) (body : Body) (r : HttpResponse) :
  outcome (generate_story_api py_str_of app body) = inr r ->
  (status r = 401 ->
   payload r
   = Json [(lit "error",
            lit "An error occurred with the Google AI service: Authentication with Google AI service failed. Check your API key.")])
  /\ (status r = 429 ->
      payload r
      = Json [(lit "error",
               lit "An error occurred with the Google AI service: Google AI service quota exceeded. Please check your usage or try again later.")]).
Proof.
  revert r.
  apply (api_cases py_str_of app body
           (fun res => forall r, outcome res = inr r ->
              (status r = 401 ->
               payload r
               = Json [(lit "error", service_error_prefix ++ auth_failed_msg)])
              /\ (status r = 429 ->
                  payload r
                  = Json [(lit "error", service_error_prefix ++ quota_exceeded_msg)])));
    intros until r; intros Ho; answered Ho;
    try (split; intros Hs; discriminate Hs).
  destruct (classify_fixed_messages e) as [Ha Hq].
  unfold classified_response, error_response, jsonify. cbn [status payload].
  split; intros Hs; [rewrite (Ha Hs) | rewrite (Hq Hs)]; reflexivity.
Qed.

Lemma fixed_answers_401_429_witness :
  payload (error_response (service_error_prefix ++ quota_exceeded_msg) 429)
  = Json [(lit "error",
           lit "An error occurred with the Google AI service: Google AI service quota exceeded. Please check your usage or try again later.")].
Proof.
  exact (proj2 (fixed_answers_401_429 repr_stub
                  (ready_app (failing_model quota_exn))
                  (prompt_body once_upon_a_time)
                  (error_response (service_error_prefix ++ quota_exceeded_msg) 429)
                  eq_refl) eq_refl).
Defined.
